(** * OmniVision OV13B10 sensor driver: register access, mode selection,
      power sequencing, streaming and control translation.

    Shallow embedding of [drivers/media/i2c/ov13b10.c].  C integers are
    modelled in [Z] with their wrap-around written out; every call that
    leaves the driver (I2C transfers, clock, regulators, GPIOs, pin control,
    runtime PM, the V4L2 control framework) is recorded in a trace and
    answered by an environment. *)

From Stdlib Require Import ZArith List Lia Bool.
Import ListNotations.
Local Open Scope Z_scope.

(** ** Fixed-width integers *)

Module Int.

Definition u8 (z : Z) : Z := z mod 2 ^ 8.
Definition u16 (z : Z) : Z := z mod 2 ^ 16.
Definition u32 (z : Z) : Z := z mod 2 ^ 32.

(** Reinterpretation of a 32-bit pattern as a two's-complement [int]. *)
Definition s32 (z : Z) : Z := (z + 2 ^ 31) mod 2 ^ 32 - 2 ^ 31.

(** Modelled from the spec: the kernel's [abs()] macro (include/linux/math.h)
    is not part of the driver file.  The spec reads it as [|x|]; on a 32-bit
    operand the macro evaluates in a signed [int], so the operand is
    reinterpreted first and the negation wraps like every [int] operation of
    the kernel build. *)
Definition abs (x : Z) : Z := s32 (Z.abs (s32 x)).

(** [cpu_to_be32]: the four bytes of a 32-bit value, most significant first. *)
Definition cpu_to_be32 (v : Z) : list Z :=
  [ Z.land (Z.shiftr v 24) 0xff; Z.land (Z.shiftr v 16) 0xff;
    Z.land (Z.shiftr v 8) 0xff; Z.land v 0xff ].

(** [be32_to_cpu]: big-endian accumulation of a byte buffer. *)
Definition be32_to_cpu (bs : list Z) : Z :=
  fold_left (fun acc b => Z.lor (Z.shiftl acc 8) (u8 b)) bs 0.

End Int.

(** ** Constants of the driver *)

Definition EIO : Z := 5.
Definition ENODEV : Z := 19.
Definition EINVAL : Z := 22.

Definition OV13B10_XVCLK_FREQ : Z := 24000000.

Definition CHIP_ID : Z := 0x560d42.
Definition OV13B10_REG_CHIP_ID : Z := 0x300a.

Definition OV13B10_REG_CTRL_MODE : Z := 0x0100.
Definition OV13B10_MODE_SW_STANDBY : Z := 0x0.
Definition OV13B10_MODE_STREAMING : Z := 1.

Definition OV13B10_REG_EXPOSURE : Z := 0x3500.
Definition OV13B10_EXPOSURE_MIN : Z := 4.
Definition OV13B10_EXPOSURE_STEP : Z := 1.
Definition OV13B10_VTS_MAX : Z := 0x7fff.

Definition OV13B10_REG_GAIN_H : Z := 0x350a.
Definition OV13B10_REG_GAIN_L : Z := 0x350b.
Definition OV13B10_GAIN_H_MASK : Z := 0x07.
Definition OV13B10_GAIN_H_SHIFT : Z := 8.
Definition OV13B10_GAIN_L_MASK : Z := 0xff.
Definition OV13B10_GAIN_MIN : Z := 0x80.
Definition OV13B10_GAIN_MAX : Z := 0x07c0.
Definition OV13B10_GAIN_STEP : Z := 1.
Definition OV13B10_GAIN_DEFAULT : Z := 0x80.

Definition OV13B10_REG_TEST_PATTERN : Z := 0x5080.
Definition OV13B10_TEST_PATTERN_ENABLE : Z := 0x80.
Definition OV13B10_TEST_PATTERN_DISABLE : Z := 0x0.

Definition OV13B10_REG_VTS : Z := 0x380e.

Definition REG_NULL : Z := 0xFFFF.

Definition OV13B10_REG_VALUE_08BIT : Z := 1.
Definition OV13B10_REG_VALUE_16BIT : Z := 2.
Definition OV13B10_REG_VALUE_24BIT : Z := 3.

Definition OV13B10_NUM_SUPPLIES : Z := 3.

(** ** Register programs and the mode table *)

Record regval := rv { addr : Z; val : Z }.

Record v4l2_fract := { numerator : Z; denominator : Z }.

Record ov13b10_mode := {
  width : Z;
  height : Z;
  max_fps : v4l2_fract;
  hts_def : Z;
  vts_def : Z;
  exp_def : Z;
  reg_list : list regval
}.

Definition ov13b10_global_regs : list regval :=
  [ rv 0x0103 0x01; rv 0x0303 0x04; rv 0x0305 0xaf; rv 0x0321 0x00; rv 0x0323 0x04;
    rv 0x0324 0x01; rv 0x0325 0xa4; rv 0x0326 0x81; rv 0x0327 0x04; rv 0x3012 0x07;
    rv 0x3013 0x32; rv 0x3107 0x23; rv 0x3501 0x0c; rv 0x3502 0x10; rv 0x3504 0x08;
    rv 0x3508 0x07; rv 0x3509 0xc0; rv 0x3600 0x16; rv 0x3601 0x54; rv 0x3612 0x4e;
    rv 0x3620 0x00; rv 0x3621 0x68; rv 0x3622 0x66; rv 0x3623 0x03; rv 0x3662 0x92;
    rv 0x3666 0xbb; rv 0x3667 0x44; rv 0x366e 0xff; rv 0x366f 0xf3; rv 0x3675 0x44;
    rv 0x3676 0x00; rv 0x367f 0xe9; rv 0x3681 0x32; rv 0x3682 0x1f; rv 0x3683 0x0b;
    rv 0x3684 0x0b; rv 0x3704 0x0f; rv 0x3706 0x40; rv 0x3708 0x3b; rv 0x3709 0x72;
    rv 0x370b 0xa2; rv 0x3714 0x24; rv 0x371a 0x3e; rv 0x3725 0x42; rv 0x3739 0x12;
    rv 0x3767 0x00; rv 0x377a 0x0d; rv 0x3789 0x18; rv 0x3790 0x40; rv 0x3791 0xa2;
    rv 0x37c2 0x04; rv 0x37c3 0xf1; rv 0x37d9 0x0c; rv 0x37da 0x02; rv 0x37dc 0x02;
    rv 0x37e1 0x04; rv 0x37e2 0x0a; rv 0x3800 0x00; rv 0x3801 0x00; rv 0x3802 0x00;
    rv 0x3803 0x08; rv 0x3804 0x10; rv 0x3805 0x8f; rv 0x3806 0x0c; rv 0x3807 0x47;
    rv 0x3808 0x10; rv 0x3809 0x70; rv 0x380a 0x0c; rv 0x380b 0x30; rv 0x380c 0x04;
    rv 0x380d 0x98; rv 0x380e 0x0c; rv 0x380f 0x7c; rv 0x3811 0x0f; rv 0x3813 0x09;
    rv 0x3814 0x01; rv 0x3815 0x01; rv 0x3816 0x01; rv 0x3817 0x01; rv 0x381f 0x08;
    rv 0x3820 0x88; rv 0x3821 0x00; rv 0x3822 0x14; rv 0x382e 0xe6; rv 0x3c80 0x00;
    rv 0x3c87 0x01; rv 0x3c8c 0x19; rv 0x3c8d 0x1c; rv 0x3ca0 0x00; rv 0x3ca1 0x00;
    rv 0x3ca2 0x00; rv 0x3ca3 0x00; rv 0x3ca4 0x50; rv 0x3ca5 0x11; rv 0x3ca6 0x01;
    rv 0x3ca7 0x00; rv 0x3ca8 0x00; rv 0x4008 0x02; rv 0x4009 0x0f; rv 0x400a 0x01;
    rv 0x400b 0x19; rv 0x4011 0x21; rv 0x4017 0x08; rv 0x4019 0x04; rv 0x401a 0x58;
    rv 0x4032 0x1e; rv 0x4050 0x02; rv 0x4051 0x09; rv 0x405e 0x00; rv 0x4066 0x02;
    rv 0x4501 0x00; rv 0x4502 0x10; rv 0x4505 0x00; rv 0x4800 0x64; rv 0x481b 0x3e;
    rv 0x481f 0x30; rv 0x4825 0x34; rv 0x4837 0x0e; rv 0x484b 0x01; rv 0x4883 0x02;
    rv 0x5000 0xff; rv 0x5001 0x0f; rv 0x5045 0x20; rv 0x5046 0x20; rv 0x5047 0xa4;
    rv 0x5048 0x20; rv 0x5049 0xa4; rv 0x0100 0x01 ].

Definition mode_4208x3120_regs : list regval :=
  [ rv 0x0305 0xaf; rv 0x3501 0x0c; rv 0x3662 0x92; rv 0x3714 0x24; rv 0x3739 0x12;
    rv 0x37c2 0x04; rv 0x37d9 0x0c; rv 0x37e2 0x0a; rv 0x3800 0x00; rv 0x3801 0x00;
    rv 0x3802 0x00; rv 0x3803 0x08; rv 0x3804 0x10; rv 0x3805 0x8f; rv 0x3806 0x0c;
    rv 0x3807 0x47; rv 0x3808 0x10; rv 0x3809 0x70; rv 0x380a 0x0c; rv 0x380b 0x30;
    rv 0x380c 0x04; rv 0x380d 0x98; rv 0x380e 0x0c; rv 0x380f 0x7c; rv 0x3810 0x00;
    rv 0x3811 0x0f; rv 0x3812 0x00; rv 0x3813 0x09; rv 0x3814 0x01; rv 0x3816 0x01;
    rv 0x3820 0x88; rv 0x3c8c 0x19; rv 0x4008 0x02; rv 0x4009 0x0f; rv 0x4050 0x02;
    rv 0x4051 0x09; rv 0x4501 0x00; rv 0x4505 0x00; rv 0x4837 0x0e; rv 0x5000 0xff;
    rv 0x5001 0x0f ].

Definition mode_4160x3120_regs : list regval :=
  [ rv 0x0305 0xaf; rv 0x3501 0x0c; rv 0x3662 0x92; rv 0x3714 0x24; rv 0x3739 0x12;
    rv 0x37c2 0x04; rv 0x37d9 0x0c; rv 0x37e2 0x0a; rv 0x3800 0x00; rv 0x3801 0x00;
    rv 0x3802 0x00; rv 0x3803 0x08; rv 0x3804 0x10; rv 0x3805 0x8f; rv 0x3806 0x0c;
    rv 0x3807 0x47; rv 0x3808 0x10; rv 0x3809 0x40; rv 0x380a 0x0c; rv 0x380b 0x30;
    rv 0x380c 0x04; rv 0x380d 0x98; rv 0x380e 0x0c; rv 0x380f 0x7c; rv 0x3810 0x00;
    rv 0x3811 0x27; rv 0x3812 0x00; rv 0x3813 0x09; rv 0x3814 0x01; rv 0x3816 0x01;
    rv 0x3820 0x88; rv 0x3c8c 0x19; rv 0x4008 0x02; rv 0x4009 0x0f; rv 0x4050 0x02;
    rv 0x4051 0x09; rv 0x4501 0x00; rv 0x4505 0x00; rv 0x4837 0x0e; rv 0x5000 0xff;
    rv 0x5001 0x0f ].

Definition mode_4160x2340_regs : list regval :=
  [ rv 0x0305 0xaf; rv 0x3501 0x0c; rv 0x3662 0x92; rv 0x3714 0x24; rv 0x3739 0x12;
    rv 0x37c2 0x04; rv 0x37d9 0x0c; rv 0x37e2 0x0a; rv 0x3800 0x00; rv 0x3801 0x00;
    rv 0x3802 0x00; rv 0x3803 0x08; rv 0x3804 0x10; rv 0x3805 0x8f; rv 0x3806 0x0c;
    rv 0x3807 0x47; rv 0x3808 0x10; rv 0x3809 0x40; rv 0x380a 0x09; rv 0x380b 0x24;
    rv 0x380c 0x04; rv 0x380d 0x98; rv 0x380e 0x0c; rv 0x380f 0x7c; rv 0x3810 0x00;
    rv 0x3811 0x27; rv 0x3812 0x01; rv 0x3813 0x8f; rv 0x3814 0x01; rv 0x3816 0x01;
    rv 0x3820 0x88; rv 0x3c8c 0x19; rv 0x4008 0x02; rv 0x4009 0x0f; rv 0x4050 0x02;
    rv 0x4051 0x09; rv 0x4501 0x00; rv 0x4505 0x00; rv 0x4837 0x0e; rv 0x5000 0xff;
    rv 0x5001 0x0f ].

Definition mode_2104x1560_regs : list regval :=
  [ rv 0x0305 0xaf; rv 0x3501 0x06; rv 0x3662 0x88; rv 0x3714 0x28; rv 0x3739 0x10;
    rv 0x37c2 0x14; rv 0x37d9 0x06; rv 0x37e2 0x0c; rv 0x3800 0x00; rv 0x3801 0x00;
    rv 0x3802 0x00; rv 0x3803 0x08; rv 0x3804 0x10; rv 0x3805 0x8f; rv 0x3806 0x0c;
    rv 0x3807 0x47; rv 0x3808 0x08; rv 0x3809 0x38; rv 0x380a 0x06; rv 0x380b 0x18;
    rv 0x380c 0x04; rv 0x380d 0x98; rv 0x380e 0x06; rv 0x380f 0x3e; rv 0x3810 0x00;
    rv 0x3811 0x07; rv 0x3812 0x00; rv 0x3813 0x05; rv 0x3814 0x03; rv 0x3816 0x03;
    rv 0x3820 0x8b; rv 0x3c8c 0x18; rv 0x4008 0x00; rv 0x4009 0x05; rv 0x4050 0x00;
    rv 0x4051 0x05; rv 0x4501 0x08; rv 0x4505 0x00; rv 0x4837 0x0e; rv 0x5000 0xfd;
    rv 0x5001 0x0d ].

Definition mode_2080x1170_regs : list regval :=
  [ rv 0x0305 0xaf; rv 0x3501 0x06; rv 0x3662 0x88; rv 0x3714 0x28; rv 0x3739 0x10;
    rv 0x37c2 0x14; rv 0x37d9 0x06; rv 0x37e2 0x0c; rv 0x3800 0x00; rv 0x3801 0x00;
    rv 0x3802 0x00; rv 0x3803 0x08; rv 0x3804 0x10; rv 0x3805 0x8f; rv 0x3806 0x0c;
    rv 0x3807 0x47; rv 0x3808 0x08; rv 0x3809 0x20; rv 0x380a 0x04; rv 0x380b 0x92;
    rv 0x380c 0x04; rv 0x380d 0x98; rv 0x380e 0x06; rv 0x380f 0x3e; rv 0x3810 0x00;
    rv 0x3811 0x13; rv 0x3812 0x00; rv 0x3813 0xc9; rv 0x3814 0x03; rv 0x3816 0x03;
    rv 0x3820 0x8b; rv 0x3c8c 0x18; rv 0x4008 0x00; rv 0x4009 0x05; rv 0x4050 0x00;
    rv 0x4051 0x05; rv 0x4501 0x08; rv 0x4505 0x00; rv 0x4837 0x0e; rv 0x5000 0xfd;
    rv 0x5001 0x0d ].

Definition supported_modes : list ov13b10_mode :=
  [ {| width := 4208; height := 3120;
       max_fps := {| numerator := 10000; denominator := 300000 |};
       hts_def := 0x0498; vts_def := 0x0c7c; exp_def := 0x0c00;
       reg_list := mode_4208x3120_regs |};
    {| width := 4160; height := 3120;
       max_fps := {| numerator := 10000; denominator := 300000 |};
       hts_def := 0x0498; vts_def := 0x0c7c; exp_def := 0x0c00;
       reg_list := mode_4160x3120_regs |};
    {| width := 4160; height := 2340;
       max_fps := {| numerator := 10000; denominator := 300000 |};
       hts_def := 0x0498; vts_def := 0x0c7c; exp_def := 0x0c00;
       reg_list := mode_4160x2340_regs |};
    {| width := 2104; height := 1560;
       max_fps := {| numerator := 10000; denominator := 600000 |};
       hts_def := 0x0498; vts_def := 0x0c7c; exp_def := 0x0c00;
       reg_list := mode_2104x1560_regs |};
    {| width := 2080; height := 1170;
       max_fps := {| numerator := 10000; denominator := 600000 |};
       hts_def := 0x0498; vts_def := 0x0c7c; exp_def := 0x0c00;
       reg_list := mode_2080x1170_regs |} ].

(** The entry [&supported_modes[i]]; the index is always in range where the
    driver dereferences it. *)
Definition mode_at (i : Z) : ov13b10_mode :=
  nth (Z.to_nat i) supported_modes
      {| width := 0; height := 0;
         max_fps := {| numerator := 0; denominator := 0 |};
         hts_def := 0; vts_def := 0; exp_def := 0; reg_list := [] |}.

(** ** Best-fit mode selection *)

(** The part of [struct v4l2_mbus_framefmt] the selector reads. *)
Record v4l2_mbus_framefmt := { fmt_width : Z; fmt_height : Z }.

(** [abs(mode->width - framefmt->width) + abs(mode->height - framefmt->height)]:
    the subtractions are on [u32] operands, the sum is an [int]. *)
Definition ov13b10_get_reso_dist (mode : ov13b10_mode)
    (framefmt : v4l2_mbus_framefmt) : Z :=
  Int.s32 (Int.abs (Int.u32 (width mode - Int.u32 (fmt_width framefmt))) +
           Int.abs (Int.u32 (height mode - Int.u32 (fmt_height framefmt)))).

(** One iteration of the scan: the pair is [(cur_best_fit, cur_best_fit_dist)]. *)
Definition best_fit_step (framefmt : v4l2_mbus_framefmt)
    (st : Z * Z) (im : Z * ov13b10_mode) : Z * Z :=
  let '(cur_best_fit, cur_best_fit_dist) := st in
  let '(i, mode) := im in
  let dist := ov13b10_get_reso_dist mode framefmt in
  if (cur_best_fit_dist =? -1) || (dist <? cur_best_fit_dist)
  then (i, dist) else (cur_best_fit, cur_best_fit_dist).

(** The entries of an array paired with their indices, from [i] on. *)
Fixpoint indexed {A : Type} (i : Z) (l : list A) : list (Z * A) :=
  match l with
  | [] => []
  | x :: l' => (i, x) :: indexed (i + 1) l'
  end.

(** The loop over [supported_modes], from [cur_best_fit = 0] and
    [cur_best_fit_dist = -1]. *)
Definition best_fit_index (framefmt : v4l2_mbus_framefmt) : Z :=
  fst (fold_left (best_fit_step framefmt) (indexed 0 supported_modes) (0, -1)).

Definition ov13b10_find_best_fit (framefmt : v4l2_mbus_framefmt) : ov13b10_mode :=
  mode_at (best_fit_index framefmt).

(** The distance the specification speaks of, over unbounded integers. *)
Definition manhattan (mode : ov13b10_mode) (w h : Z) : Z :=
  Z.abs (width mode - w) + Z.abs (height mode - h).

(** ** The world outside the driver *)

(** Controls registered with the control handler, in creation order. *)
Inductive ctrl_id :=
| V4L2_CID_LINK_FREQ
| V4L2_CID_PIXEL_RATE
| V4L2_CID_HBLANK
| V4L2_CID_VBLANK
| V4L2_CID_EXPOSURE
| V4L2_CID_ANALOGUE_GAIN
| V4L2_CID_TEST_PATTERN.

(** Calls that leave the driver.  [i2c_master_send] carries the bytes put on
    the bus; [i2c_transfer] the address message and the length of the read
    message that follows it. *)
Inductive call :=
| i2c_master_send (buf : list Z)
| i2c_transfer (wr : list Z) (rd_len : Z)
| gpiod_set_value_cansleep (gpio : Z) (value : Z)
| usleep_range (min max : Z)
| pinctrl_select_state (state : Z)
| clk_set_rate (rate : Z)
| clk_get_rate
| clk_prepare_enable
| clk_disable_unprepare
| regulator_bulk_enable (num : Z)
| regulator_bulk_disable (num : Z)
| pm_runtime_get_sync
| pm_runtime_put_noidle
| pm_runtime_put
| pm_runtime_get_if_in_use
| v4l2_ctrl_modify_range (id : ctrl_id) (min max step def : Z).

(** What a call returns: its integer result and, for a read, the bytes. *)
Record reply := { rc : Z; data : list Z }.

(** The environment answers a call from the history of calls before it. *)
Definition environment := list call -> call -> reply.

(** ** Driver instance *)

Record v4l2_ctrl := {
  minimum : Z;
  maximum : Z;
  step : Z;
  default_value : Z;
  cur_val : Z
}.

(** [struct ov13b10]; a GPIO or pin state that probing did not obtain is [None]. *)
Record ov13b10 := {
  power_gpio : option Z;
  reset_gpio : option Z;
  pwdn_gpio : option Z;
  pins_default : option Z;
  pins_sleep : option Z;
  exposure : v4l2_ctrl;
  anal_gain : v4l2_ctrl;
  hblank : v4l2_ctrl;
  vblank : v4l2_ctrl;
  test_pattern : v4l2_ctrl;
  mutex : bool;
  streaming : bool;
  power_on : bool;
  cur_mode : ov13b10_mode
}.

Record world := { dev : ov13b10; trace : list call }.

Definition with_exposure (c : v4l2_ctrl) (d : ov13b10) : ov13b10 :=
  {| power_gpio := power_gpio d; reset_gpio := reset_gpio d;
     pwdn_gpio := pwdn_gpio d; pins_default := pins_default d;
     pins_sleep := pins_sleep d; exposure := c; anal_gain := anal_gain d;
     hblank := hblank d; vblank := vblank d; test_pattern := test_pattern d;
     mutex := mutex d; streaming := streaming d; power_on := power_on d;
     cur_mode := cur_mode d |}.

Definition with_anal_gain (c : v4l2_ctrl) (d : ov13b10) : ov13b10 :=
  {| power_gpio := power_gpio d; reset_gpio := reset_gpio d;
     pwdn_gpio := pwdn_gpio d; pins_default := pins_default d;
     pins_sleep := pins_sleep d; exposure := exposure d; anal_gain := c;
     hblank := hblank d; vblank := vblank d; test_pattern := test_pattern d;
     mutex := mutex d; streaming := streaming d; power_on := power_on d;
     cur_mode := cur_mode d |}.

Definition with_hblank (c : v4l2_ctrl) (d : ov13b10) : ov13b10 :=
  {| power_gpio := power_gpio d; reset_gpio := reset_gpio d;
     pwdn_gpio := pwdn_gpio d; pins_default := pins_default d;
     pins_sleep := pins_sleep d; exposure := exposure d; anal_gain := anal_gain d;
     hblank := c; vblank := vblank d; test_pattern := test_pattern d;
     mutex := mutex d; streaming := streaming d; power_on := power_on d;
     cur_mode := cur_mode d |}.

Definition with_vblank (c : v4l2_ctrl) (d : ov13b10) : ov13b10 :=
  {| power_gpio := power_gpio d; reset_gpio := reset_gpio d;
     pwdn_gpio := pwdn_gpio d; pins_default := pins_default d;
     pins_sleep := pins_sleep d; exposure := exposure d; anal_gain := anal_gain d;
     hblank := hblank d; vblank := c; test_pattern := test_pattern d;
     mutex := mutex d; streaming := streaming d; power_on := power_on d;
     cur_mode := cur_mode d |}.

Definition with_test_pattern (c : v4l2_ctrl) (d : ov13b10) : ov13b10 :=
  {| power_gpio := power_gpio d; reset_gpio := reset_gpio d;
     pwdn_gpio := pwdn_gpio d; pins_default := pins_default d;
     pins_sleep := pins_sleep d; exposure := exposure d; anal_gain := anal_gain d;
     hblank := hblank d; vblank := vblank d; test_pattern := c;
     mutex := mutex d; streaming := streaming d; power_on := power_on d;
     cur_mode := cur_mode d |}.

Definition with_mutex (b : bool) (d : ov13b10) : ov13b10 :=
  {| power_gpio := power_gpio d; reset_gpio := reset_gpio d;
     pwdn_gpio := pwdn_gpio d; pins_default := pins_default d;
     pins_sleep := pins_sleep d; exposure := exposure d; anal_gain := anal_gain d;
     hblank := hblank d; vblank := vblank d; test_pattern := test_pattern d;
     mutex := b; streaming := streaming d; power_on := power_on d;
     cur_mode := cur_mode d |}.

Definition with_streaming (b : bool) (d : ov13b10) : ov13b10 :=
  {| power_gpio := power_gpio d; reset_gpio := reset_gpio d;
     pwdn_gpio := pwdn_gpio d; pins_default := pins_default d;
     pins_sleep := pins_sleep d; exposure := exposure d; anal_gain := anal_gain d;
     hblank := hblank d; vblank := vblank d; test_pattern := test_pattern d;
     mutex := mutex d; streaming := b; power_on := power_on d;
     cur_mode := cur_mode d |}.

Definition with_power_on (b : bool) (d : ov13b10) : ov13b10 :=
  {| power_gpio := power_gpio d; reset_gpio := reset_gpio d;
     pwdn_gpio := pwdn_gpio d; pins_default := pins_default d;
     pins_sleep := pins_sleep d; exposure := exposure d; anal_gain := anal_gain d;
     hblank := hblank d; vblank := vblank d; test_pattern := test_pattern d;
     mutex := mutex d; streaming := streaming d; power_on := b;
     cur_mode := cur_mode d |}.

Definition with_cur_mode (m : ov13b10_mode) (d : ov13b10) : ov13b10 :=
  {| power_gpio := power_gpio d; reset_gpio := reset_gpio d;
     pwdn_gpio := pwdn_gpio d; pins_default := pins_default d;
     pins_sleep := pins_sleep d; exposure := exposure d; anal_gain := anal_gain d;
     hblank := hblank d; vblank := vblank d; test_pattern := test_pattern d;
     mutex := mutex d; streaming := streaming d; power_on := power_on d;
     cur_mode := m |}.

(** The control a handler entry points to, where the instance keeps one. *)
Definition ctrl_of (id : ctrl_id) (d : ov13b10) : option v4l2_ctrl :=
  match id with
  | V4L2_CID_HBLANK => Some (hblank d)
  | V4L2_CID_VBLANK => Some (vblank d)
  | V4L2_CID_EXPOSURE => Some (exposure d)
  | V4L2_CID_ANALOGUE_GAIN => Some (anal_gain d)
  | V4L2_CID_TEST_PATTERN => Some (test_pattern d)
  | _ => None
  end.

Definition with_ctrl (id : ctrl_id) (c : v4l2_ctrl) (d : ov13b10) : ov13b10 :=
  match id with
  | V4L2_CID_HBLANK => with_hblank c d
  | V4L2_CID_VBLANK => with_vblank c d
  | V4L2_CID_EXPOSURE => with_exposure c d
  | V4L2_CID_ANALOGUE_GAIN => with_anal_gain c d
  | V4L2_CID_TEST_PATTERN => with_test_pattern c d
  | _ => d
  end.

(** ** A state monad with undefined behaviour *)

Definition M (A : Type) : Type := world -> option (A * world).

Definition ret {A : Type} (a : A) : M A := fun w => Some (a, w).

Definition bind {A B : Type} (m : M A) (k : A -> M B) : M B :=
  fun w => match m w with
           | Some (a, w') => k a w'
           | None => None
           end.

(** No defined result: a read outside an array, a lock that is never granted. *)
Definition undefined {A : Type} : M A := fun _ => None.

Definition get_dev : M ov13b10 := fun w => Some (dev w, w).

Definition modify_dev (f : ov13b10 -> ov13b10) : M unit :=
  fun w => Some (tt, {| dev := f (dev w); trace := trace w |}).

Declare Scope drv_scope.
Delimit Scope drv_scope with drv.
Notation "x <- m ;; k" := (bind m (fun x => k))
  (at level 61, m at next level, right associativity) : drv_scope.
Notation "m ;; k" := (bind m (fun _ => k))
  (at level 61, right associativity) : drv_scope.
Notation "' pat <- m ;; k" := (bind m (fun x => match x with pat => k end))
  (at level 61, pat pattern, m at next level, right associativity) : drv_scope.
Local Open Scope drv_scope.

Section Driver.

Variable env : environment.

(** A call into the kernel: logged, and answered by the environment. *)
Definition extern (c : call) : M reply :=
  fun w => Some (env (trace w) c, {| dev := dev w; trace := trace w ++ [c] |}).

Definition mutex_lock : M unit :=
  d <- get_dev ;;
  if mutex d then undefined else modify_dev (with_mutex true).

Definition mutex_unlock : M unit := modify_dev (with_mutex false).

(** *** Register access *)

(** The buffer [ov13b10_write_reg] hands to the bus: the address, then the
    last [len] bytes of the big-endian value. *)
Definition write_buf (reg len val : Z) : list Z :=
  [ Int.u8 (Z.shiftr reg 8); Z.land reg 0xff ] ++
  skipn (Z.to_nat (4 - len)) (Int.cpu_to_be32 val).

Definition ov13b10_write_reg (reg len val : Z) : M Z :=
  let reg := Int.u16 reg in
  let len := Int.u32 len in
  let val := Int.u32 val in
  if 4 <? len then ret (- EINVAL)
  else
    r <- extern (i2c_master_send (write_buf reg len val)) ;;
    if negb (rc r =? len + 2) then ret (- EIO) else ret 0.

(** The loop reads [regs[i]] until it meets [REG_NULL]; nothing bounds [i],
    so running off the array has no defined result. *)
Fixpoint ov13b10_write_array (regs : list regval) : M Z :=
  match regs with
  | [] => undefined
  | r :: regs' =>
      if negb (addr r =? REG_NULL) then
        ret_ <- ov13b10_write_reg (addr r) OV13B10_REG_VALUE_08BIT (val r) ;;
        if ret_ =? 0 then ov13b10_write_array regs' else ret ret_
      else ret 0
  end.

(** [val] is the content of [*val] before the call; the result pairs the
    return value with the content after it. *)
Definition ov13b10_read_reg (reg len val : Z) : M (Z * Z) :=
  let reg := Int.u16 reg in
  let len := Int.u32 len in
  if (4 <? len) || (len =? 0) then ret (- EINVAL, val)
  else
    r <- extern (i2c_transfer [ Int.u8 (Z.shiftr reg 8); Z.land reg 0xff ] len) ;;
    if negb (rc r =? 2) then ret (- EIO, val)
    else
      let n := Z.to_nat len in
      let data_be := repeat 0 (4 - n) ++ firstn n (data r ++ repeat 0 n) in
      ret (0, Int.be32_to_cpu data_be).

(** *** Control translation *)

Definition ov13b10_enable_test_pattern (pattern : Z) : M Z :=
  let pattern := Int.u32 pattern in
  let val :=
    if negb (pattern =? 0)
    then Z.lor (Int.u32 (pattern - 1)) OV13B10_TEST_PATTERN_ENABLE
    else OV13B10_TEST_PATTERN_DISABLE in
  ov13b10_write_reg OV13B10_REG_TEST_PATTERN OV13B10_REG_VALUE_08BIT val.

Definition clamp (lo hi v : Z) : Z :=
  if v <? lo then lo else if hi <? v then hi else v.

(** Modelled from the spec: [__v4l2_ctrl_modify_range] belongs to the V4L2
    control framework, which is not part of the driver file.  Following the
    spec's range cascade it installs the new range on the control and clamps
    the value the control holds into it; the call is recorded in the trace. *)
Definition __v4l2_ctrl_modify_range (id : ctrl_id) (min max step def : Z) : M Z :=
  extern (v4l2_ctrl_modify_range id min max step def) ;;
  d <- get_dev ;;
  match ctrl_of id d with
  | Some c =>
      modify_dev (with_ctrl id {| minimum := min; maximum := max; step := step;
                                  default_value := def;
                                  cur_val := clamp min max (cur_val c) |}) ;;
      ret 0
  | None => ret (- EINVAL)
  end.

(** [ctrl->id] and [ctrl->val] are the two fields of the control the
    callback reads. *)
Definition ov13b10_set_ctrl (id : ctrl_id) (ctrl_val : Z) : M Z :=
  d <- get_dev ;;
  match id with
  | V4L2_CID_VBLANK =>
      let max := Int.u32 (height (cur_mode d) + ctrl_val - 16) in
      __v4l2_ctrl_modify_range V4L2_CID_EXPOSURE
        (minimum (exposure d)) max (step (exposure d))
        (default_value (exposure d)) ;;
      ret tt
  | _ => ret tt
  end ;;
  in_use <- extern pm_runtime_get_if_in_use ;;
  if rc in_use =? 0 then ret 0
  else
    ret_ <- match id with
            | V4L2_CID_EXPOSURE =>
                ov13b10_write_reg OV13B10_REG_EXPOSURE
                  OV13B10_REG_VALUE_24BIT ctrl_val
            | V4L2_CID_ANALOGUE_GAIN =>
                r1 <- ov13b10_write_reg OV13B10_REG_GAIN_H
                        OV13B10_REG_VALUE_08BIT
                        (Z.land (Z.shiftr ctrl_val OV13B10_GAIN_H_SHIFT)
                                OV13B10_GAIN_H_MASK) ;;
                r2 <- ov13b10_write_reg OV13B10_REG_GAIN_L
                        OV13B10_REG_VALUE_08BIT
                        (Z.land ctrl_val OV13B10_GAIN_L_MASK) ;;
                ret (Z.lor r1 r2)
            | V4L2_CID_VBLANK =>
                ov13b10_write_reg OV13B10_REG_VTS OV13B10_REG_VALUE_16BIT
                  (ctrl_val + height (cur_mode d))
            | V4L2_CID_TEST_PATTERN =>
                ov13b10_enable_test_pattern ctrl_val
            | _ => ret 0
            end ;;
    extern pm_runtime_put ;;
    ret ret_.

(** Controls created with [ov13b10_ctrl_ops], in the order
    [ov13b10_initialize_controls] creates them. *)
Definition ops_ctrls : list ctrl_id :=
  [ V4L2_CID_VBLANK; V4L2_CID_EXPOSURE; V4L2_CID_ANALOGUE_GAIN;
    V4L2_CID_TEST_PATTERN ].

Fixpoint setup_ctrls (ids : list ctrl_id) : M Z :=
  match ids with
  | [] => ret 0
  | id :: ids' =>
      d <- get_dev ;;
      ret_ <- ov13b10_set_ctrl id
                (match ctrl_of id d with Some c => cur_val c | None => 0 end) ;;
      if ret_ =? 0 then setup_ctrls ids' else ret ret_
  end.

(** Modelled from the spec: [v4l2_ctrl_handler_setup] belongs to the V4L2
    control framework, which is not part of the driver file.  It re-applies
    every currently held control value through the set-control callback:
    the setup pass across all controls, stopping at the first failure. *)
Definition v4l2_ctrl_handler_setup : M Z := setup_ctrls ops_ctrls.

(** *** Streaming *)

Definition __ov13b10_start_stream : M Z :=
  d <- get_dev ;;
  ret_ <- ov13b10_write_array (reg_list (cur_mode d)) ;;
  if negb (ret_ =? 0) then ret ret_
  else
    mutex_unlock ;;
    ret_ <- v4l2_ctrl_handler_setup ;;
    mutex_lock ;;
    if negb (ret_ =? 0) then ret ret_
    else
      ov13b10_write_reg OV13B10_REG_CTRL_MODE OV13B10_REG_VALUE_08BIT
        OV13B10_MODE_STREAMING.

Definition __ov13b10_stop_stream : M Z :=
  ov13b10_write_reg OV13B10_REG_CTRL_MODE OV13B10_REG_VALUE_08BIT
    OV13B10_MODE_SW_STANDBY.

(** The label [unlock_and_return]. *)
Definition unlock_and_return (ret_ : Z) : M Z :=
  mutex_unlock ;; ret ret_.

Definition ov13b10_s_stream (on : Z) : M Z :=
  mutex_lock ;;
  let on := negb (on =? 0) in
  d <- get_dev ;;
  if Bool.eqb on (streaming d) then unlock_and_return 0
  else if on then
    r <- extern pm_runtime_get_sync ;;
    if rc r <? 0 then
      extern pm_runtime_put_noidle ;;
      unlock_and_return (rc r)
    else
      ret_ <- __ov13b10_start_stream ;;
      if negb (ret_ =? 0) then
        extern pm_runtime_put ;;
        unlock_and_return ret_
      else
        modify_dev (with_streaming on) ;;
        unlock_and_return ret_
  else
    __ov13b10_stop_stream ;;
    extern pm_runtime_put ;;
    modify_dev (with_streaming on) ;;
    unlock_and_return 0.

(** *** Power *)

Definition ov13b10_s_power (on : Z) : M Z :=
  mutex_lock ;;
  d <- get_dev ;;
  if Bool.eqb (power_on d) (negb (on =? 0)) then unlock_and_return 0
  else if negb (on =? 0) then
    r <- extern pm_runtime_get_sync ;;
    if rc r <? 0 then
      extern pm_runtime_put_noidle ;;
      unlock_and_return (rc r)
    else
      ret_ <- ov13b10_write_array ov13b10_global_regs ;;
      if negb (ret_ =? 0) then
        extern pm_runtime_put_noidle ;;
        unlock_and_return ret_
      else
        modify_dev (with_power_on true) ;;
        unlock_and_return ret_
  else
    extern pm_runtime_put ;;
    modify_dev (with_power_on false) ;;
    unlock_and_return 0.

(** [DIV_ROUND_UP(cycles, OV13B10_XVCLK_FREQ / 1000 / 1000)], that is
    [(cycles + d - 1) / d] with the sum taken in [u32]. *)
Definition ov13b10_cal_delay (cycles : Z) : Z :=
  let d := OV13B10_XVCLK_FREQ / 1000 / 1000 in
  Int.u32 (Int.u32 cycles + d - 1) / d.

(** A call made only when the handle was obtained. *)
Definition if_present (h : option Z) (c : Z -> call) : M unit :=
  match h with
  | Some x => extern (c x) ;; ret tt
  | None => ret tt
  end.

Definition __ov13b10_power_on : M Z :=
  d <- get_dev ;;
  if_present (power_gpio d) (fun g => gpiod_set_value_cansleep g 1) ;;
  extern (usleep_range 1000 2000) ;;
  if_present (pins_default d) pinctrl_select_state ;;
  extern (clk_set_rate OV13B10_XVCLK_FREQ) ;;
  extern clk_get_rate ;;
  r <- extern clk_prepare_enable ;;
  if rc r <? 0 then ret (rc r)
  else
    if_present (reset_gpio d) (fun g => gpiod_set_value_cansleep g 0) ;;
    r <- extern (regulator_bulk_enable OV13B10_NUM_SUPPLIES) ;;
    if rc r <? 0 then
      (* disable_clk: *)
      extern clk_disable_unprepare ;;
      ret (rc r)
    else
      if_present (reset_gpio d) (fun g => gpiod_set_value_cansleep g 1) ;;
      extern (usleep_range 500 1000) ;;
      if_present (pwdn_gpio d) (fun g => gpiod_set_value_cansleep g 1) ;;
      let delay_us := ov13b10_cal_delay 8192 in
      extern (usleep_range delay_us (Int.u32 (delay_us * 2))) ;;
      ret 0.

Definition __ov13b10_power_off : M unit :=
  d <- get_dev ;;
  if_present (pwdn_gpio d) (fun g => gpiod_set_value_cansleep g 0) ;;
  extern clk_disable_unprepare ;;
  if_present (reset_gpio d) (fun g => gpiod_set_value_cansleep g 0) ;;
  if_present (pins_sleep d) pinctrl_select_state ;;
  if_present (power_gpio d) (fun g => gpiod_set_value_cansleep g 0) ;;
  extern (regulator_bulk_disable OV13B10_NUM_SUPPLIES) ;;
  ret tt.

(** *** Identity *)

Definition ov13b10_check_sensor_id : M Z :=
  '(ret_, id) <- ov13b10_read_reg OV13B10_REG_CHIP_ID
                   OV13B10_REG_VALUE_24BIT 0 ;;
  if negb (id =? CHIP_ID) then ret (- ENODEV) else ret 0.

(** *** Runtime PM callbacks *)

Definition ov13b10_runtime_resume : M Z := __ov13b10_power_on.

Definition ov13b10_runtime_suspend : M Z := __ov13b10_power_off ;; ret 0.

(** *** Format negotiation *)

Definition ENOTTY : Z := 25.
Definition ENOIOCTLCMD : Z := 515.

(** Values of the V4L2 user interface headers, which are not part of the
    driver file. *)
Definition MEDIA_BUS_FMT_SGRBG10_1X10 : Z := 0x300a.
Definition V4L2_FIELD_NONE : Z := 1.
Definition V4L2_SUBDEV_FORMAT_TRY : Z := 0.
Definition V4L2_SUBDEV_FORMAT_ACTIVE : Z := 1.

(** The fields of a frame format the driver writes: the size, the media bus
    code and the field order. *)
Record mbus_fmt := {
  fmt_size : v4l2_mbus_framefmt;
  fmt_code : Z;
  fmt_field : Z
}.

(** [struct v4l2_subdev_format]; the driver has one pad. *)
Record v4l2_subdev_format := { sf_which : Z; sf_format : mbus_fmt }.

Definition mode_fmt (mode : ov13b10_mode) : mbus_fmt :=
  {| fmt_size := {| fmt_width := width mode; fmt_height := height mode |};
     fmt_code := MEDIA_BUS_FMT_SGRBG10_1X10;
     fmt_field := V4L2_FIELD_NONE |}.

(** [api] is [CONFIG_VIDEO_V4L2_SUBDEV_API]; [sd_state] is the try format of
    the pad, which [v4l2_subdev_get_try_format] points to.  The result is the
    return value, the try format and [*fmt] after the call. *)
Definition ov13b10_set_fmt (api : bool) (sd_state : mbus_fmt)
    (fmt : v4l2_subdev_format) : M (Z * mbus_fmt * v4l2_subdev_format) :=
  mutex_lock ;;
  let mode := ov13b10_find_best_fit (fmt_size (sf_format fmt)) in
  let fmt := {| sf_which := sf_which fmt; sf_format := mode_fmt mode |} in
  if sf_which fmt =? V4L2_SUBDEV_FORMAT_TRY then
    if api then
      mutex_unlock ;; ret (0, sf_format fmt, fmt)
    else
      mutex_unlock ;; ret (- ENOTTY, sd_state, fmt)
  else
    modify_dev (with_cur_mode mode) ;;
    let h_blank := Int.u32 (hts_def mode - width mode) in
    __v4l2_ctrl_modify_range V4L2_CID_HBLANK h_blank h_blank 1 h_blank ;;
    let vblank_def := Int.u32 (vts_def mode - height mode) in
    __v4l2_ctrl_modify_range V4L2_CID_VBLANK vblank_def
      (Int.u32 (OV13B10_VTS_MAX - height mode)) 1 vblank_def ;;
    mutex_unlock ;; ret (0, sd_state, fmt).

Definition ov13b10_get_fmt (api : bool) (sd_state : mbus_fmt)
    (fmt : v4l2_subdev_format) : M (Z * v4l2_subdev_format) :=
  d <- get_dev ;;
  let mode := cur_mode d in
  mutex_lock ;;
  if sf_which fmt =? V4L2_SUBDEV_FORMAT_TRY then
    if api then
      mutex_unlock ;; ret (0, {| sf_which := sf_which fmt; sf_format := sd_state |})
    else
      mutex_unlock ;; ret (- ENOTTY, fmt)
  else
    mutex_unlock ;;
    ret (0, {| sf_which := sf_which fmt; sf_format := mode_fmt mode |}).

(** [ov13b10_open]: the try format of a new file handle. *)
Definition ov13b10_open (try_fmt : mbus_fmt) : M (Z * mbus_fmt) :=
  let def_mode := mode_at 0 in
  mutex_lock ;;
  mutex_unlock ;;
  ret (0, mode_fmt def_mode).

(** *** Enumeration *)

Definition ov13b10_enum_mbus_code (index : Z) (code : Z) : Z * Z :=
  if negb (Int.u32 index =? 0) then (- EINVAL, code)
  else (0, MEDIA_BUS_FMT_SGRBG10_1X10).

Record v4l2_subdev_frame_size_enum := {
  fse_index : Z;
  fse_code : Z;
  min_width : Z;
  max_width : Z;
  min_height : Z;
  max_height : Z
}.

Definition ov13b10_enum_frame_sizes (fse : v4l2_subdev_frame_size_enum)
  : Z * v4l2_subdev_frame_size_enum :=
  if Z.of_nat (length supported_modes) <=? Int.u32 (fse_index fse) then (- EINVAL, fse)
  else if negb (fse_code fse =? MEDIA_BUS_FMT_SGRBG10_1X10) then (- EINVAL, fse)
  else
    let mode := mode_at (Int.u32 (fse_index fse)) in
    (0, {| fse_index := fse_index fse; fse_code := fse_code fse;
           min_width := width mode; max_width := width mode;
           min_height := height mode; max_height := height mode |}).

Record v4l2_subdev_frame_interval_enum := {
  fie_index : Z;
  fie_code : Z;
  fie_width : Z;
  fie_height : Z;
  fie_interval : v4l2_fract
}.

Definition ov13b10_enum_frame_interval (fie : v4l2_subdev_frame_interval_enum)
  : Z * v4l2_subdev_frame_interval_enum :=
  if Z.of_nat (length supported_modes) <=? Int.u32 (fie_index fie) then (- EINVAL, fie)
  else
    let mode := mode_at (Int.u32 (fie_index fie)) in
    (0, {| fie_index := fie_index fie; fie_code := MEDIA_BUS_FMT_SGRBG10_1X10;
           fie_width := width mode; fie_height := height mode;
           fie_interval := max_fps mode |}).

Definition ov13b10_g_frame_interval : M (Z * v4l2_fract) :=
  d <- get_dev ;;
  ret (0, max_fps (cur_mode d)).

(** *** Private ioctls *)

(** The commands of [rk-camera-module.h] the driver tells apart; their
    numbers are not part of the driver file. *)
Inductive ioctl_cmd :=
| RKMODULE_GET_MODULE_INFO
| RKMODULE_SET_QUICK_STREAM
| ioctl_other (cmd : Z).

(** [arg] is the [u32] that [arg] points to for the quick-stream command.
    The module information is written to [*arg] only, outside the instance. *)
Definition ov13b10_ioctl (cmd : ioctl_cmd) (arg : Z) : M Z :=
  match cmd with
  | RKMODULE_GET_MODULE_INFO => ret 0
  | RKMODULE_SET_QUICK_STREAM =>
      let stream := Int.u32 arg in
      if negb (stream =? 0) then
        ov13b10_write_reg OV13B10_REG_CTRL_MODE OV13B10_REG_VALUE_08BIT
          OV13B10_MODE_STREAMING
      else
        ov13b10_write_reg OV13B10_REG_CTRL_MODE OV13B10_REG_VALUE_08BIT
          OV13B10_MODE_SW_STANDBY
  | ioctl_other _ => ret (- ENOIOCTLCMD)
  end.

End Driver.

(** ** Test doubles and a probed instance *)

(** A bus that accepts every transfer; the device is powered and in use. *)
Definition quiet_env : environment :=
  fun _ c =>
    match c with
    | i2c_master_send buf => {| rc := Z.of_nat (length buf); data := [] |}
    | i2c_transfer _ _ => {| rc := 2; data := [] |}
    | pm_runtime_get_if_in_use => {| rc := 1; data := [] |}
    | _ => {| rc := 0; data := [] |}
    end.

(** A bus on which every transfer fails with [-EREMOTEIO]. *)
Definition dead_bus_env : environment :=
  fun _ c =>
    match c with
    | i2c_master_send _ => {| rc := -121; data := [] |}
    | i2c_transfer _ _ => {| rc := -121; data := [] |}
    | pm_runtime_get_if_in_use => {| rc := 1; data := [] |}
    | _ => {| rc := 0; data := [] |}
    end.

(** A bus that accepts the first [n] calls of the history and fails afterwards. *)
Definition fail_after_env (n : nat) : environment :=
  fun h c => if (length h <? n)%nat then quiet_env h c else dead_bus_env h c.

(** Register file of a device: what it holds at each 16-bit address. *)
Definition regfile := Z -> Z.

Fixpoint store_bytes (a : Z) (bs : list Z) (m : regfile) : regfile :=
  match bs with
  | [] => m
  | b :: bs' => store_bytes (Int.u16 (a + 1)) bs' (fun x => if x =? a then b else m x)
  end.

Fixpoint load_bytes (a : Z) (n : nat) (m : regfile) : list Z :=
  match n with
  | O => []
  | S n' => m a :: load_bytes (Int.u16 (a + 1)) n' m
  end.

Definition apply_call (m : regfile) (c : call) : regfile :=
  match c with
  | i2c_master_send (hi :: lo :: bs) => store_bytes (hi * 256 + lo) bs m
  | _ => m
  end.

Definition regfile_of (h : list call) : regfile :=
  fold_left apply_call h (fun _ => 0).

(** A bus double that stores what each write sent and serves reads from it. *)
Definition store_env : environment :=
  fun h c =>
    match c with
    | i2c_master_send buf => {| rc := Z.of_nat (length buf); data := [] |}
    | i2c_transfer [hi; lo] n =>
        {| rc := 2; data := load_bytes (hi * 256 + lo) (Z.to_nat n) (regfile_of h) |}
    | _ => {| rc := 0; data := [] |}
    end.

(** The instance as [ov13b10_probe] and [ov13b10_initialize_controls] leave it
    on a board that provides every GPIO and pin state.  The horizontal blank
    is computed in [u32] and handed over as the range; the value a control
    holds is an [s32]. *)
Definition probed : ov13b10 :=
  let mode := mode_at 0 in
  {| power_gpio := Some 0; reset_gpio := Some 1; pwdn_gpio := Some 2;
     pins_default := Some 0; pins_sleep := Some 1;
     exposure := {| minimum := OV13B10_EXPOSURE_MIN; maximum := vts_def mode - 16;
                    step := OV13B10_EXPOSURE_STEP; default_value := exp_def mode;
                    cur_val := exp_def mode |};
     anal_gain := {| minimum := OV13B10_GAIN_MIN; maximum := OV13B10_GAIN_MAX;
                     step := OV13B10_GAIN_STEP; default_value := OV13B10_GAIN_DEFAULT;
                     cur_val := OV13B10_GAIN_DEFAULT |};
     hblank := {| minimum := Int.u32 (hts_def mode - width mode);
                  maximum := Int.u32 (hts_def mode - width mode); step := 1;
                  default_value := Int.u32 (hts_def mode - width mode);
                  cur_val := Int.s32 (Int.u32 (hts_def mode - width mode)) |};
     vblank := {| minimum := vts_def mode - height mode;
                  maximum := OV13B10_VTS_MAX - height mode; step := 1;
                  default_value := vts_def mode - height mode;
                  cur_val := vts_def mode - height mode |};
     test_pattern := {| minimum := 0; maximum := 4; step := 0;
                        default_value := 0; cur_val := 0 |};
     mutex := false; streaming := false; power_on := false;
     cur_mode := mode |}.

Definition boot : world := {| dev := probed; trace := [] |}.

(** ** Vocabulary of the statements *)

(** State of the scan of [ov13b10_find_best_fit] once the entries [seen] went
    by, for a distance [D]: nothing is chosen yet, or the choice is the first
    entry of least distance among them. *)
Inductive scan_inv (D : ov13b10_mode -> Z) (seen : list ov13b10_mode) : Z * Z -> Prop :=
| scan_none : seen = [] -> scan_inv D seen (0, -1)
| scan_best (l1 : list ov13b10_mode) (r : ov13b10_mode) (l2 : list ov13b10_mode) :
    seen = l1 ++ r :: l2 ->
    0 <= D r ->
    Forall (fun m => D r < D m) l1 ->
    Forall (fun m => D r <= D m) l2 ->
    scan_inv D seen (Z.of_nat (length l1), D r).

(** The bus write [ov13b10_write_array] issues for one entry: the address,
    high byte first, then the single value byte. *)
Definition single_byte_write (r : regval) : call :=
  i2c_master_send [ Int.u8 (Z.shiftr (Int.u16 (addr r)) 8);
                    Z.land (Int.u16 (addr r)) 0xff;
                    Z.land (Int.u32 (val r)) 0xff ].

(** The bus takes each of the three-byte writes [cs] in turn, starting from
    the history [h]. *)
Fixpoint all_accepted (env : environment) (h : list call) (cs : list call) : Prop :=
  match cs with
  | [] => True
  | c :: cs' => rc (env h c) = 3 /\ all_accepted env (h ++ [c]) cs'
  end.

(** The transfer [ov13b10_check_sensor_id] issues, and the identity a reply
    to it carries: three bytes accumulated high byte first. *)
Definition id_read : call := i2c_transfer [0x30; 0x0a] 3.

Definition id_value (r : reply) : Z :=
  Int.be32_to_cpu (0 :: firstn 3 (data r ++ [0; 0; 0])).

(** A bus behind which a genuine OV13B10 answers the identity read. *)
Definition genuine_env : environment :=
  fun _ c =>
    match c with
    | i2c_master_send buf => {| rc := Z.of_nat (length buf); data := [] |}
    | i2c_transfer _ _ => {| rc := 2; data := [0x56; 0x0d; 0x42] |}
    | _ => {| rc := 0; data := [] |}
    end.

(** The calls a present handle gives rise to. *)
Definition opt_call (h : option Z) (c : Z -> call) : list call :=
  match h with
  | Some x => [c x]
  | None => []
  end.

(** What [__ov13b10_power_on] does before it enables the clock: the power
    enable, the settling delay, the default pin state, the clock rate. *)
Definition power_on_head (d : ov13b10) : list call :=
  opt_call (power_gpio d) (fun g => gpiod_set_value_cansleep g 1) ++
  [usleep_range 1000 2000] ++
  opt_call (pins_default d) pinctrl_select_state ++
  [clk_set_rate OV13B10_XVCLK_FREQ; clk_get_rate].

(** A platform whose clock refuses to start, and one whose supplies do. *)
Definition clk_fail_env : environment :=
  fun h c =>
    match c with
    | clk_prepare_enable => {| rc := -22; data := [] |}
    | _ => quiet_env h c
    end.

Definition regulator_fail_env : environment :=
  fun h c =>
    match c with
    | regulator_bulk_enable _ => {| rc := -110; data := [] |}
    | _ => quiet_env h c
    end.

(** The bus writes of the mode-control register. *)
Definition write_streaming : call := i2c_master_send [0x01; 0x00; 0x01].
Definition write_standby : call := i2c_master_send [0x01; 0x00; 0x00].

(** The two calls of the vertical-blank control: the range update of the
    exposure control, and the 16-bit write of the VTS register. *)
Definition exposure_range_update (d : ov13b10) (max : Z) : call :=
  v4l2_ctrl_modify_range V4L2_CID_EXPOSURE
    (minimum (exposure d)) max (step (exposure d)) (default_value (exposure d)).

Definition write_vts (vts : Z) : call :=
  i2c_master_send [0x38; 0x0e; vts / 256; vts mod 256].

(** What [ov13b10_set_ctrl] does for a vertical blank [v] from the history
    [h] on: the range update, the availability check and, when the device is
    in use, the VTS write and the release. *)
Definition vblank_calls (env : environment) (h : list call) (d : ov13b10) (v : Z)
  : list call :=
  let height := height (cur_mode d) in
  let upd := exposure_range_update d (height + v - 16) in
  upd :: pm_runtime_get_if_in_use ::
  (if rc (env (h ++ [upd]) pm_runtime_get_if_in_use) =? 0 then []
   else [write_vts (v + height); pm_runtime_put]).

(** The values the vertical-blank control accepts while [m] is the mode: the
    range [ov13b10_initialize_controls] and [ov13b10_set_fmt] give it,
    from [vts_def - height] to [OV13B10_VTS_MAX - height]. *)
Definition vblank_accepts (m : ov13b10_mode) (v : Z) : Prop :=
  vts_def m - height m <= v <= OV13B10_VTS_MAX - height m.

(** The instance once its lock is free and power was requested. *)
Definition powered : world :=
  {| dev := with_power_on true probed; trace := [] |}.

(** No entry of the program carries the sentinel address. *)
Definition sentinel_free (regs : list regval) : bool :=
  forallb (fun r => negb (addr r =? REG_NULL)) regs.

(** A mode like the first of the catalog whose program is a short one closed
    by the sentinel, and the powered instance set to it. *)
Definition closed_mode : ov13b10_mode :=
  {| width := 4208; height := 3120;
     max_fps := {| numerator := 10000; denominator := 300000 |};
     hts_def := 0x0498; vts_def := 0x0c7c; exp_def := 0x0c00;
     reg_list := [rv 0x0305 0xaf; rv 0x3501 0x0c; rv REG_NULL 0x00] |}.

Definition powered_closed : world :=
  {| dev := with_cur_mode closed_mode (with_power_on true probed); trace := [] |}.

(** A computation that leaves the streaming flag as it found it and only
    adds calls to the trace. *)
Definition keeps_streaming {A : Type} (m : M A) : Prop :=
  forall w a w', m w = Some (a, w') ->
    streaming (dev w') = streaming (dev w) /\ exists t, trace w' = trace w ++ t.



(** The value a GPIO line was last set to in a run of calls. *)
Fixpoint last_gpio_value (g : Z) (t : list call) : option Z :=
  match t with
  | [] => None
  | c :: t' =>
      match last_gpio_value g t' with
      | Some v => Some v
      | None =>
          match c with
          | gpiod_set_value_cansleep g' v => if g' =? g then Some v else None
          | _ => None
          end
      end
  end.

(** How many calls of a run satisfy [p]. *)
Definition count_calls (p : call -> bool) (t : list call) : nat :=
  length (filter p t).

Definition is_clk_enable (c : call) : bool :=
  match c with clk_prepare_enable => true | _ => false end.

Definition is_clk_disable (c : call) : bool :=
  match c with clk_disable_unprepare => true | _ => false end.

Definition is_regulator_enable (c : call) : bool :=
  match c with regulator_bulk_enable _ => true | _ => false end.

Definition is_regulator_disable (c : call) : bool :=
  match c with regulator_bulk_disable _ => true | _ => false end.

(** The calls of a power-on that succeeds, and those of the power-off. *)
Definition power_on_calls (d : ov13b10) : list call :=
  power_on_head d ++
  clk_prepare_enable ::
  opt_call (reset_gpio d) (fun g => gpiod_set_value_cansleep g 0) ++
  regulator_bulk_enable OV13B10_NUM_SUPPLIES ::
  opt_call (reset_gpio d) (fun g => gpiod_set_value_cansleep g 1) ++
  usleep_range 500 1000 ::
  opt_call (pwdn_gpio d) (fun g => gpiod_set_value_cansleep g 1) ++
  [usleep_range 342 684].

Definition power_off_calls (d : ov13b10) : list call :=
  opt_call (pwdn_gpio d) (fun g => gpiod_set_value_cansleep g 0) ++
  clk_disable_unprepare ::
  opt_call (reset_gpio d) (fun g => gpiod_set_value_cansleep g 0) ++
  opt_call (pins_sleep d) pinctrl_select_state ++
  opt_call (power_gpio d) (fun g => gpiod_set_value_cansleep g 0) ++
  [regulator_bulk_disable OV13B10_NUM_SUPPLIES].

(** * Properties *)

(** ** Integer lemmas *)

Lemma u32_small (x : Z) : 0 <= x < 2 ^ 32 -> Int.u32 x = x.
Proof. intros H. unfold Int.u32. now apply Z.mod_small. Qed.

Lemma u16_small (x : Z) : 0 <= x < 2 ^ 16 -> Int.u16 x = x.
Proof. intros H. unfold Int.u16. now apply Z.mod_small. Qed.

Lemma u8_small (x : Z) : 0 <= x < 2 ^ 8 -> Int.u8 x = x.
Proof. intros H. unfold Int.u8. now apply Z.mod_small. Qed.

Lemma s32_small (x : Z) : - 2 ^ 31 <= x < 2 ^ 31 -> Int.s32 x = x.
Proof.
  intros H. unfold Int.s32. rewrite Z.mod_small; lia.
Qed.

Lemma s32_u32 (x : Z) : Int.s32 (Int.u32 x) = Int.s32 x.
Proof.
  unfold Int.s32, Int.u32. now rewrite Zplus_mod_idemp_l.
Qed.

Lemma abs_u32_exact (x : Z) :
  - 2 ^ 31 < x < 2 ^ 31 -> Int.abs (Int.u32 x) = Z.abs x.
Proof.
  intros H. unfold Int.abs.
  rewrite s32_u32, (s32_small x) by lia.
  apply s32_small. lia.
Qed.

(** ** Best-fit selection *)

Lemma reso_dist_exact (m : ov13b10_mode) (w h : Z) :
  0 <= w -> 0 <= h -> 0 <= width m < 2 ^ 31 -> 0 <= height m < 2 ^ 31 ->
  manhattan m w h < 2 ^ 31 ->
  ov13b10_get_reso_dist m {| fmt_width := w; fmt_height := h |} = manhattan m w h.
Proof.
  unfold manhattan, ov13b10_get_reso_dist; cbn [fmt_width fmt_height].
  intros Hw Hh Hmw Hmh Hd.
  assert (Hw32 : Int.u32 w = w) by (apply u32_small; lia).
  assert (Hh32 : Int.u32 h = h) by (apply u32_small; lia).
  rewrite Hw32, Hh32, !abs_u32_exact by lia.
  apply s32_small. lia.
Qed.

Section Scan.

Variable framefmt : v4l2_mbus_framefmt.

Let D (m : ov13b10_mode) : Z := ov13b10_get_reso_dist m framefmt.

Lemma scan_step (seen : list ov13b10_mode) (st : Z * Z) (m : ov13b10_mode) :
  0 <= D m ->
  scan_inv D seen st ->
  scan_inv D (seen ++ [m]) (best_fit_step framefmt st (Z.of_nat (length seen), m)).
Proof.
  intros Hm Hinv. destruct Hinv as [Hnil | l1 r l2 Hseen Hr Hl1 Hl2].
  - subst seen. cbn [best_fit_step app length Z.of_nat Z.eqb orb].
    apply (scan_best D [m] [] m []); auto.
  - unfold best_fit_step. fold (D m).
    destruct (Z.eqb_spec (D r) (-1)) as [E | _]; [lia |].
    cbn [orb]. destruct (Z.ltb_spec (D m) (D r)) as [Hlt | Hge].
    + apply (scan_best D (seen ++ [m]) seen m []).
      * reflexivity.
      * exact Hm.
      * subst seen. apply Forall_app; split.
        -- eapply Forall_impl; [| exact Hl1]. cbn; intros; lia.
        -- constructor; [lia |].
           eapply Forall_impl; [| exact Hl2]. cbn; intros; lia.
      * constructor.
    + apply (scan_best D (seen ++ [m]) l1 r (l2 ++ [m])).
      * subst seen. now rewrite <- app_assoc.
      * exact Hr.
      * exact Hl1.
      * apply Forall_app; split; [exact Hl2 | constructor; [lia | constructor]].
Qed.

Lemma scan_fold (l seen : list ov13b10_mode) (st : Z * Z) :
  Forall (fun m => 0 <= D m) l ->
  scan_inv D seen st ->
  scan_inv D (seen ++ l)
    (fold_left (best_fit_step framefmt) (indexed (Z.of_nat (length seen)) l) st).
Proof.
  revert seen st. induction l as [|m l IH]; intros seen st Hpos Hinv.
  - now rewrite app_nil_r.
  - inversion Hpos as [| ? ? Hm Hl]; subst.
    cbn [indexed fold_left].
    replace (seen ++ m :: l) with ((seen ++ [m]) ++ l) by now rewrite <- app_assoc.
    replace (Z.of_nat (length seen) + 1) with (Z.of_nat (length (seen ++ [m])))
      by (rewrite length_app; cbn [length]; lia).
    apply IH; [exact Hl |]. now apply scan_step.
Qed.

(** Whenever no distance is negative, the scan ends on the first entry of
    least distance. *)
Lemma find_best_fit_first_least :
  Forall (fun m => 0 <= D m) supported_modes ->
  exists l1 l2,
    supported_modes = l1 ++ ov13b10_find_best_fit framefmt :: l2 /\
    best_fit_index framefmt = Z.of_nat (length l1) /\
    Forall (fun m => D (ov13b10_find_best_fit framefmt) < D m) l1 /\
    Forall (fun m => D (ov13b10_find_best_fit framefmt) <= D m) l2.
Proof.
  intros Hpos.
  pose proof (scan_fold supported_modes [] (0, -1) Hpos (scan_none D [] eq_refl)) as H.
  cbn [app length Z.of_nat] in H.
  unfold ov13b10_find_best_fit, best_fit_index.
  destruct H as [Hnil | l1 r l2 Hseen Hr Hl1 Hl2]; [discriminate Hnil |].
  cbn [fst].
  assert (Hr' : mode_at (Z.of_nat (length l1)) = r).
  { unfold mode_at. rewrite Nat2Z.id, Hseen. apply nth_middle. }
  rewrite Hr'. exists l1, l2. auto.
Qed.

End Scan.

(** Within the range where 32-bit arithmetic is exact, the selector returns
    the catalog entry of least Manhattan distance, the first one on a tie. *)
Lemma find_best_fit_in_range (w h : Z) :
  0 <= w -> 0 <= h ->
  Forall (fun m => manhattan m w h < 2 ^ 31) supported_modes ->
  let r := ov13b10_find_best_fit {| fmt_width := w; fmt_height := h |} in
  exists l1 l2,
    supported_modes = l1 ++ r :: l2 /\
    Forall (fun m => manhattan r w h < manhattan m w h) l1 /\
    Forall (fun m => manhattan r w h <= manhattan m w h) l2.
Proof.
  intros Hw Hh Hrange r.
  assert (Hbounds : Forall (fun m => 0 <= width m < 2 ^ 31 /\ 0 <= height m < 2 ^ 31)
                           supported_modes).
  { repeat constructor; cbn; lia. }
  assert (Hexact : Forall (fun m => ov13b10_get_reso_dist m
                                      {| fmt_width := w; fmt_height := h |}
                                    = manhattan m w h) supported_modes).
  { rewrite Forall_forall in *. intros m Hin.
    destruct (Hbounds m Hin). apply reso_dist_exact; auto. }
  destruct (find_best_fit_first_least {| fmt_width := w; fmt_height := h |})
    as (l1 & l2 & Hsplit & _ & Hl1 & Hl2).
  { rewrite Forall_forall in *. intros m Hin. rewrite (Hexact m Hin).
    unfold manhattan. lia. }
  fold r in Hsplit, Hl1, Hl2.
  rewrite Forall_forall in Hexact.
  assert (Hin : forall m, In m (l1 ++ r :: l2) -> In m supported_modes)
    by (intros m; now rewrite <- Hsplit).
  exists l1, l2. split; [exact Hsplit |].
  rewrite <- (Hexact r) by (apply Hin, in_elt).
  split; rewrite Forall_forall in *; intros m Hm.
  - rewrite <- (Hexact m) by (apply Hin, in_or_app; now left). now apply Hl1.
  - rewrite <- (Hexact m) by (apply Hin, in_or_app; right; now right). now apply Hl2.
Qed.

Lemma find_best_fit_small_request (w h : Z) :
  0 <= w < 2 ^ 30 -> 0 <= h < 2 ^ 30 ->
  let r := ov13b10_find_best_fit {| fmt_width := w; fmt_height := h |} in
  exists l1 l2,
    supported_modes = l1 ++ r :: l2 /\
    Forall (fun m => manhattan r w h < manhattan m w h) l1 /\
    Forall (fun m => manhattan r w h <= manhattan m w h) l2.
Proof.
  intros Hw Hh. apply find_best_fit_in_range; try lia.
  repeat constructor; unfold manhattan; cbn [width height]; lia.
Qed.

(** C1 (the code departs from it): a request of width [2^32 - 1] makes the
    [u32] subtractions of the distance wrap, so the scan returns the 2080x1170
    entry although the 4160x2340 entry is strictly closer in Manhattan
    distance, and is the closest of the catalog. *)
Theorem find_best_fit_wraps_on_wide_request :
  let w := 4294967295 in
  let h := 0 in
  let r := ov13b10_find_best_fit {| fmt_width := w; fmt_height := h |} in
  r = mode_at 4 /\
  width r = 2080 /\ height r = 1170 /\
  manhattan (mode_at 2) w h < manhattan r w h /\
  Forall (fun m => manhattan (mode_at 2) w h <= manhattan m w h) supported_modes.
Proof.
  cbv zeta. split; [vm_compute; reflexivity |].
  split; [reflexivity |]. split; [reflexivity |].
  split; [vm_compute; reflexivity |].
  repeat constructor; vm_compute; discriminate.
Qed.

(** ** Register access *)

Ltac run :=
  unfold bind, ret, extern, get_dev, modify_dev, undefined, mutex_lock,
    mutex_unlock, unlock_and_return; cbn [dev trace].

Lemma write_reg_run (env : environment) (reg len val : Z) (w : world) :
  0 <= len <= 4 ->
  ov13b10_write_reg env reg len val w =
    let c := i2c_master_send (write_buf (Int.u16 reg) len (Int.u32 val)) in
    Some (if rc (env (trace w) c) =? len + 2 then 0 else - EIO,
          {| dev := dev w; trace := trace w ++ [c] |}).
Proof.
  intros Hlen. unfold ov13b10_write_reg.
  rewrite (u32_small len) by lia.
  destruct (Z.ltb_spec 4 len) as [H | _]; [lia |].
  run. now destruct (rc _ =? len + 2).
Qed.

Lemma write_reg_einval_iff (env : environment) (reg len val : Z) (w : world) :
  0 <= len < 2 ^ 32 ->
  (exists w', ov13b10_write_reg env reg len val w = Some (- EINVAL, w')) <-> 4 < len.
Proof.
  intros Hlen. split.
  - intros [w' H]. destruct (Z.ltb_spec 4 len) as [Hgt | Hle]; [exact Hgt |].
    rewrite write_reg_run in H by lia. cbv zeta in H.
    destruct (rc _ =? len + 2); inversion H.
  - intros Hgt. exists w. unfold ov13b10_write_reg.
    rewrite (u32_small len) by lia.
    destruct (Z.ltb_spec 4 len) as [_ | H]; [reflexivity | lia].
Qed.

Lemma read_reg_einval_iff (env : environment) (reg len val : Z) (w : world) :
  0 <= len < 2 ^ 32 ->
  (exists v' w', ov13b10_read_reg env reg len val w = Some ((- EINVAL, v'), w'))
  <-> (len = 0 \/ 4 < len).
Proof.
  intros Hlen. unfold ov13b10_read_reg. rewrite (u32_small len) by lia.
  destruct (Z.ltb_spec 4 len) as [Hgt | Hle]; cbn [orb].
  - split; [intros _; now right | intros _; now exists val, w].
  - destruct (Z.eqb_spec len 0) as [H0 | Hn0].
    + split; [intros _; now left | intros _; now exists val, w].
    + split; [| lia]. intros (v' & w' & H). revert H. run.
      destruct (rc _ =? 2); cbn [negb]; intros H; inversion H.
Qed.

Lemma u32_range (x : Z) : 0 <= Int.u32 x < 2 ^ 32.
Proof. unfold Int.u32. apply Z.mod_pos_bound. lia. Qed.

Lemma write_reg_len_u32 (env : environment) (reg len val : Z) :
  ov13b10_write_reg env reg len val = ov13b10_write_reg env reg (Int.u32 len) val.
Proof.
  unfold ov13b10_write_reg. now rewrite (u32_small (Int.u32 len)) by apply u32_range.
Qed.

Lemma read_reg_len_u32 (env : environment) (reg len val : Z) :
  ov13b10_read_reg env reg len val = ov13b10_read_reg env reg (Int.u32 len) val.
Proof.
  unfold ov13b10_read_reg. now rewrite (u32_small (Int.u32 len)) by apply u32_range.
Qed.

(** C4 (amended): for every length, taken as the [u32] the functions
    receive, [ov13b10_write_reg] returns [-EINVAL] exactly when the length is
    above 4 and [ov13b10_read_reg] exactly when it is 0 or above 4; a call
    that is rejected leaves the instance and the bus untouched.  A write of
    length 0 is not rejected: it hands the two address bytes to the bus and
    returns 0 when the bus takes them and [-EIO] otherwise. *)
Theorem reg_access_invalid_length (env : environment) (reg len val : Z) (w : world) :
  let n := Int.u32 len in
  let c := i2c_master_send [ Int.u8 (Z.shiftr (Int.u16 reg) 8);
                             Z.land (Int.u16 reg) 0xff ] in
  ((exists w', ov13b10_write_reg env reg len val w = Some (- EINVAL, w')) <-> 4 < n) /\
  ((exists v' w', ov13b10_read_reg env reg len val w = Some ((- EINVAL, v'), w'))
   <-> n = 0 \/ 4 < n) /\
  (4 < n -> ov13b10_write_reg env reg len val w = Some (- EINVAL, w)) /\
  (n = 0 \/ 4 < n -> ov13b10_read_reg env reg len val w = Some ((- EINVAL, val), w)) /\
  (n = 0 ->
   ov13b10_write_reg env reg len val w =
     Some (if rc (env (trace w) c) =? 2 then 0 else - EIO,
           {| dev := dev w; trace := trace w ++ [c] |})).
Proof.
  cbv zeta. pose proof (u32_range len) as Hn.
  rewrite write_reg_len_u32, read_reg_len_u32.
  split; [apply write_reg_einval_iff; exact Hn |].
  split; [apply read_reg_einval_iff; exact Hn |].
  split; [| split].
  - intros Hgt. unfold ov13b10_write_reg.
    rewrite (u32_small (Int.u32 len)) by exact Hn.
    destruct (Z.ltb_spec 4 (Int.u32 len)) as [_ | H]; [reflexivity | lia].
  - intros Hbad. unfold ov13b10_read_reg.
    rewrite (u32_small (Int.u32 len)) by exact Hn.
    destruct (Z.ltb_spec 4 (Int.u32 len)) as [_ | Hle]; [reflexivity |].
    destruct (Z.eqb_spec (Int.u32 len) 0) as [_ | Hne]; [reflexivity | lia].
  - intros ->. rewrite write_reg_run by lia. reflexivity.
Qed.

(** C4 as the claim states it fails for a write of length 0: on a bus that
    takes every transfer, [ov13b10_write_reg] for the mode-control register
    sends the two address bytes and returns 0, not [-EINVAL]. *)
Lemma write_reg_zero_length_counterexample :
  ov13b10_write_reg quiet_env OV13B10_REG_CTRL_MODE 0 1 boot =
    Some (0, {| dev := probed; trace := [i2c_master_send [0x01; 0x00]] |}) /\
  ~ (exists w', ov13b10_write_reg quiet_env OV13B10_REG_CTRL_MODE 0 1 boot =
                  Some (- EINVAL, w')).
Proof.
  split; [reflexivity |]. intros [w' H]. discriminate H.
Qed.

(** ** Register programs *)

Lemma write_array_entry (env : environment) (r : regval) (regs : list regval) (w : world) :
  addr r <> REG_NULL ->
  ov13b10_write_array env (r :: regs) w =
    let w' := {| dev := dev w; trace := trace w ++ [single_byte_write r] |} in
    if rc (env (trace w) (single_byte_write r)) =? 3
    then ov13b10_write_array env regs w'
    else Some (- EIO, w').
Proof.
  intros Hr. cbn [ov13b10_write_array].
  destruct (Z.eqb_spec (addr r) REG_NULL) as [E | _]; [contradiction |].
  cbn [negb]. unfold bind at 1.
  rewrite write_reg_run by (unfold OV13B10_REG_VALUE_08BIT; lia).
  cbv zeta. change (write_buf _ OV13B10_REG_VALUE_08BIT _) with
    [ Int.u8 (Z.shiftr (Int.u16 (addr r)) 8); Z.land (Int.u16 (addr r)) 0xff;
      Z.land (Int.u32 (val r)) 0xff ].
  fold (single_byte_write r).
  change (OV13B10_REG_VALUE_08BIT + 2) with 3.
  now destruct (rc _ =? 3).
Qed.

Lemma write_array_sentinel (env : environment) (v0 : Z) (regs : list regval) (w : world) :
  ov13b10_write_array env (rv REG_NULL v0 :: regs) w = Some (0, w).
Proof. reflexivity. Qed.

Lemma write_array_accepted_prefix (env : environment) (pre tail : list regval) :
  Forall (fun r => addr r <> REG_NULL) pre ->
  forall w,
    all_accepted env (trace w) (map single_byte_write pre) ->
    ov13b10_write_array env (pre ++ tail) w =
      ov13b10_write_array env tail
        {| dev := dev w; trace := trace w ++ map single_byte_write pre |}.
Proof.
  induction 1 as [| r pre Hr Hpre IH]; intros w Hacc.
  - cbn [map app]. rewrite app_nil_r. now destruct w.
  - cbn [map all_accepted] in Hacc. destruct Hacc as [Hrc Hacc].
    cbn [app map]. rewrite write_array_entry by exact Hr. cbv zeta.
    rewrite Hrc. cbn [Z.eqb Pos.eqb].
    rewrite IH by exact Hacc. cbn [dev trace].
    now rewrite <- app_assoc.
Qed.

(** C5: on a program that ends with the [REG_NULL] sentinel,
    [ov13b10_write_array] issues one single-byte write per entry before the
    sentinel, in program order, and returns 0 when the bus takes them all;
    when the bus refuses the write of an entry it returns that error and the
    trace ends with the refused write: the entries after it are not sent and
    the writes before it stay issued. *)
Theorem write_array_until_sentinel (env : environment) (pre : list regval) (v0 : Z)
    (rest : list regval) (w : world) :
  Forall (fun r => addr r <> REG_NULL) pre ->
  (all_accepted env (trace w) (map single_byte_write pre) ->
   ov13b10_write_array env (pre ++ rv REG_NULL v0 :: rest) w =
     Some (0, {| dev := dev w; trace := trace w ++ map single_byte_write pre |}))
  /\
  (forall (p1 : list regval) (r : regval) (p2 : list regval),
     pre = p1 ++ r :: p2 ->
     all_accepted env (trace w) (map single_byte_write p1) ->
     rc (env (trace w ++ map single_byte_write p1) (single_byte_write r)) <> 3 ->
     ov13b10_write_array env (pre ++ rv REG_NULL v0 :: rest) w =
       Some (- EIO, {| dev := dev w;
                       trace := trace w ++ map single_byte_write (p1 ++ [r]) |})).
Proof.
  intros Hpre. split.
  - intros Hacc. rewrite write_array_accepted_prefix by assumption.
    apply write_array_sentinel.
  - intros p1 r p2 -> Hacc Hfail.
    apply Forall_app in Hpre. destruct Hpre as [Hp1 Hrp2].
    inversion Hrp2 as [| ? ? Hr _]; subst.
    rewrite <- app_assoc.
    rewrite write_array_accepted_prefix by assumption.
    cbn [app]. rewrite write_array_entry by exact Hr. cbv zeta. cbn [dev trace].
    destruct (Z.eqb_spec (rc (env (trace w ++ map single_byte_write p1)
                                  (single_byte_write r))) 3) as [E | _];
      [contradiction |].
    now rewrite map_app, app_assoc.
Qed.

Lemma write_array_until_sentinel_witness :
  ov13b10_write_array quiet_env
    [rv 0x0305 0xaf; rv 0x3501 0x0c; rv REG_NULL 0x00; rv 0x3662 0x92] boot =
    Some (0, {| dev := probed;
                trace := [ i2c_master_send [0x03; 0x05; 0xaf];
                           i2c_master_send [0x35; 0x01; 0x0c] ] |}) /\
  ov13b10_write_array (fail_after_env 1)
    [rv 0x0305 0xaf; rv 0x3501 0x0c; rv 0x3662 0x92; rv REG_NULL 0x00] boot =
    Some (- EIO, {| dev := probed;
                    trace := [ i2c_master_send [0x03; 0x05; 0xaf];
                               i2c_master_send [0x35; 0x01; 0x0c] ] |}).
Proof.
  split.
  - apply (proj1 (write_array_until_sentinel quiet_env
                    [rv 0x0305 0xaf; rv 0x3501 0x0c] 0x00 [rv 0x3662 0x92] boot
                    ltac:(repeat constructor; discriminate))).
    cbn. auto.
  - apply (proj2 (write_array_until_sentinel (fail_after_env 1)
                    [rv 0x0305 0xaf; rv 0x3501 0x0c; rv 0x3662 0x92] 0x00 [] boot
                    ltac:(repeat constructor; discriminate))
                 [rv 0x0305 0xaf] (rv 0x3501 0x0c) [rv 0x3662 0x92] eq_refl).
    + cbn. auto.
    + cbn. discriminate.
Defined.

(** ** Byte packing *)

Lemma land_0xff (x : Z) : Z.land x 0xff = x mod 256.
Proof. change 0xff with (Z.ones 8). now rewrite Z.land_ones by lia. Qed.

Lemma shiftr_8 (x : Z) : Z.shiftr x 8 = x / 256.
Proof. now rewrite Z.shiftr_div_pow2 by lia. Qed.

Lemma lor_shiftl_8 (hi lo : Z) :
  0 <= lo < 256 -> Z.lor (Z.shiftl hi 8) lo = hi * 256 + lo.
Proof.
  intros Hlo.
  assert (Hdisj : Z.land (Z.shiftl hi 8) lo = 0).
  { apply Z.bits_inj'. intros n Hn. rewrite Z.land_spec, Z.bits_0.
    destruct (Z.ltb_spec n 8) as [Hlt | Hge].
    - now rewrite Z.shiftl_spec_low by lia.
    - replace lo with (lo mod 2 ^ 8) by (apply Z.mod_small; lia).
      rewrite Z.mod_pow2_bits_high by lia. apply andb_false_r. }
  rewrite <- Z.lxor_lor, <- Z.add_nocarry_lxor by exact Hdisj.
  now rewrite Z.shiftl_mul_pow2 by lia.
Qed.

Lemma be32_to_cpu_16 (hi lo : Z) :
  0 <= hi < 256 -> 0 <= lo < 256 ->
  Int.be32_to_cpu [0; 0; hi; lo] = hi * 256 + lo.
Proof.
  intros Hhi Hlo. unfold Int.be32_to_cpu. cbn [fold_left].
  change (Z.lor (Z.shiftl (Z.lor (Z.shiftl 0 8) (Int.u8 0)) 8) (Int.u8 0)) with 0.
  rewrite (u8_small hi), (u8_small lo) by lia.
  rewrite (lor_shiftl_8 0 hi), (lor_shiftl_8 _ lo) by lia. lia.
Qed.

Lemma write_buf_16 (a v : Z) :
  0 <= a < 2 ^ 16 -> 0 <= v < 2 ^ 16 ->
  write_buf a 2 v = [a / 256; a mod 256; v / 256; v mod 256].
Proof.
  intros Ha Hv. unfold write_buf, Int.cpu_to_be32. cbn [Z.to_nat Z.sub skipn app].
  change (Z.to_nat (4 - 2)) with 2%nat. cbn [skipn].
  rewrite !land_0xff, !shiftr_8.
  rewrite (u8_small (a / 256)) by (split; [apply Z.div_pos | apply Z.div_lt_upper_bound]; lia).
  rewrite (Z.mod_small (v / 256))
    by (split; [apply Z.div_pos | apply Z.div_lt_upper_bound]; lia).
  reflexivity.
Qed.

(** ** Round trip through a storing bus *)

Lemma regfile_of_snoc (h : list call) (c : call) :
  regfile_of (h ++ [c]) = apply_call (regfile_of h) c.
Proof. unfold regfile_of. now rewrite fold_left_app. Qed.

Lemma read_reg_run (env : environment) (reg len val : Z) (w : world) :
  1 <= len <= 4 ->
  ov13b10_read_reg env reg len val w =
    let c := i2c_transfer [ Int.u8 (Z.shiftr (Int.u16 reg) 8);
                            Z.land (Int.u16 reg) 0xff ] len in
    let r := env (trace w) c in
    let n := Z.to_nat len in
    Some (if rc r =? 2
          then (0, Int.be32_to_cpu (repeat 0 (4 - n) ++ firstn n (data r ++ repeat 0 n)))
          else (- EIO, val),
          {| dev := dev w; trace := trace w ++ [c] |}).
Proof.
  intros Hlen. unfold ov13b10_read_reg. rewrite (u32_small len) by lia.
  destruct (Z.ltb_spec 4 len) as [H | _]; [lia |].
  destruct (Z.eqb_spec len 0) as [H | _]; [lia |].
  cbn [orb]. run. now destruct (rc _ =? 2).
Qed.

(** C9: on a bus double that stores what a write sent, writing a 16-bit value
    with [len = 2] and reading [len = 2] back at the same 16-bit address
    returns the value: the write puts the address and the value on the bus
    high byte first, and the read accumulates the two bytes it gets in the
    same order. *)
Theorem write_read_roundtrip_16 (a v x : Z) (w : world) :
  0 <= a < 2 ^ 16 -> 0 <= v < 2 ^ 16 ->
  exists w1 w2,
    ov13b10_write_reg store_env a OV13B10_REG_VALUE_16BIT v w = Some (0, w1) /\
    trace w1 = trace w ++ [i2c_master_send [a / 256; a mod 256; v / 256; v mod 256]] /\
    ov13b10_read_reg store_env a OV13B10_REG_VALUE_16BIT x w1 = Some ((0, v), w2).
Proof.
  intros Ha Hv. unfold OV13B10_REG_VALUE_16BIT.
  assert (Hah : 0 <= a / 256 < 256)
    by (split; [apply Z.div_pos | apply Z.div_lt_upper_bound]; lia).
  assert (Hvh : 0 <= v / 256 < 256)
    by (split; [apply Z.div_pos | apply Z.div_lt_upper_bound]; lia).
  pose proof (Z.mod_pos_bound a 256 ltac:(lia)) as Hal.
  pose proof (Z.mod_pos_bound v 256 ltac:(lia)) as Hvl.
  rewrite write_reg_run by lia. cbv zeta.
  rewrite (u16_small a), (u32_small v), write_buf_16 by lia.
  eexists; eexists. split; [reflexivity |]. split; [reflexivity |].
  rewrite read_reg_run by lia. cbv zeta. cbn [trace dev].
  rewrite (u16_small a), land_0xff, shiftr_8, (u8_small (a / 256)) by lia.
  cbn [store_env rc data]. rewrite regfile_of_snoc. cbn [apply_call].
  change (Z.to_nat 2) with 2%nat.
  cbn [load_bytes store_bytes repeat Nat.sub firstn app].
  replace (a / 256 * 256 + a mod 256) with a
    by (rewrite (Z.div_mod a 256) at 1; lia).
  rewrite Z.eqb_refl.
  assert (Hne : (a =? Int.u16 (a + 1)) = false).
  { apply Z.eqb_neq. unfold Int.u16.
    destruct (Z.eq_dec a 65535) as [-> | Hn]; [discriminate |].
    rewrite Z.mod_small; lia. }
  rewrite Hne at 1.
  rewrite !Z.eqb_refl.
  rewrite be32_to_cpu_16 by lia.
  repeat f_equal. rewrite (Z.div_mod v 256) at 3; lia.
Qed.

Lemma write_read_roundtrip_16_witness :
  exists w1 w2,
    ov13b10_write_reg store_env 0x380e OV13B10_REG_VALUE_16BIT 0x1234 boot = Some (0, w1) /\
    trace w1 = trace boot ++ [i2c_master_send [0x380e / 256; 0x380e mod 256;
                                               0x1234 / 256; 0x1234 mod 256]] /\
    ov13b10_read_reg store_env 0x380e OV13B10_REG_VALUE_16BIT 0 w1 = Some ((0, 0x1234), w2).
Proof.
  apply (write_read_roundtrip_16 0x380e 0x1234 0 boot); lia.
Defined.

(** ** Identity check *)

(** C10: [ov13b10_check_sensor_id] issues the 3-byte read of register 0x300a
    and nothing else, no register write; it returns 0 exactly when the
    transfer completed and the bytes read are 0x560d42; in every other case,
    a failed transfer included, it returns [-ENODEV]: the error of the read
    is dropped and the accumulator, still 0, fails the comparison. *)
Theorem check_sensor_id_result (env : environment) (w : world) :
  let r := env (trace w) id_read in
  exists ret_,
    ov13b10_check_sensor_id env w =
      Some (ret_, {| dev := dev w; trace := trace w ++ [id_read] |}) /\
    (ret_ = 0 <-> rc r = 2 /\ id_value r = CHIP_ID) /\
    (ret_ = 0 \/ ret_ = - ENODEV) /\
    (rc r <> 2 -> ret_ = - ENODEV) /\
    (forall buf, ~ In (i2c_master_send buf) [id_read]).
Proof.
  cbv zeta. unfold ov13b10_check_sensor_id, bind.
  rewrite read_reg_run by (unfold OV13B10_REG_VALUE_24BIT; lia). cbv zeta.
  change (i2c_transfer _ OV13B10_REG_VALUE_24BIT) with id_read.
  change (Z.to_nat OV13B10_REG_VALUE_24BIT) with 3%nat.
  cbn [Nat.sub repeat app].
  fold (id_value (env (trace w) id_read)).
  assert (Hnowrite : forall buf, ~ In (i2c_master_send buf) [id_read]).
  { intros buf [H | []]. discriminate H. }
  destruct (Z.eqb_spec (rc (env (trace w) id_read)) 2) as [Hrc | Hrc].
  - destruct (Z.eqb_spec (id_value (env (trace w) id_read)) CHIP_ID) as [Hid | Hid].
    + exists 0. cbn [negb]. split; [reflexivity |].
      split; [tauto |]. split; [now left |]. split; [contradiction | exact Hnowrite].
    + exists (- ENODEV). cbn [negb]. split; [reflexivity |].
      split; [split; [discriminate | tauto] |].
      split; [now right |]. split; [reflexivity | exact Hnowrite].
  - exists (- ENODEV). change (negb (0 =? CHIP_ID)) with true. cbv iota.
    split; [reflexivity |].
    split; [split; [discriminate | tauto] |].
    split; [now right |]. split; [reflexivity | exact Hnowrite].
Qed.

Example check_sensor_id_genuine :
  ov13b10_check_sensor_id genuine_env boot = Some (0, {| dev := probed; trace := [id_read] |}).
Proof. reflexivity. Qed.

Example check_sensor_id_dead_bus :
  ov13b10_check_sensor_id dead_bus_env boot =
    Some (- ENODEV, {| dev := probed; trace := [id_read] |}).
Proof. reflexivity. Qed.

Example check_sensor_id_other_part :
  ov13b10_check_sensor_id quiet_env boot =
    Some (- ENODEV, {| dev := probed; trace := [id_read] |}).
Proof. reflexivity. Qed.

(** ** Power-on sequence *)

Lemma if_present_run (env : environment) (h : option Z) (c : Z -> call) (w : world) :
  if_present env h c w =
    Some (tt, {| dev := dev w; trace := trace w ++ opt_call h c |}).
Proof.
  destruct h; cbn; [reflexivity |]. rewrite app_nil_r. now destruct w.
Qed.

Lemma power_on_run (env : environment) (w : world) :
  let d := dev w in
  let h1 := trace w ++ power_on_head d in
  let r1 := rc (env h1 clk_prepare_enable) in
  let h2 := h1 ++ clk_prepare_enable ::
            opt_call (reset_gpio d) (fun g => gpiod_set_value_cansleep g 0) in
  let r2 := rc (env h2 (regulator_bulk_enable OV13B10_NUM_SUPPLIES)) in
  __ov13b10_power_on env w =
    if r1 <? 0 then Some (r1, {| dev := d; trace := h1 ++ [clk_prepare_enable] |})
    else if r2 <? 0 then
      Some (r2, {| dev := d;
                   trace := h2 ++ [regulator_bulk_enable OV13B10_NUM_SUPPLIES;
                                   clk_disable_unprepare] |})
    else
      Some (0, {| dev := d;
                  trace := h2 ++ regulator_bulk_enable OV13B10_NUM_SUPPLIES ::
                           opt_call (reset_gpio d) (fun g => gpiod_set_value_cansleep g 1) ++
                           usleep_range 500 1000 ::
                           opt_call (pwdn_gpio d) (fun g => gpiod_set_value_cansleep g 1) ++
                           [usleep_range 342 684] |}).
Proof.
  destruct w as [d tr].
  cbv [__ov13b10_power_on power_on_head if_present bind extern get_dev ret dev trace].
  destruct (power_gpio d), (pins_default d), (reset_gpio d), (pwdn_gpio d);
    cbn [opt_call dev trace]; rewrite <- ?app_assoc; cbn [app];
    (destruct (rc _ <? 0); [reflexivity |]);
    cbn [opt_call dev trace]; rewrite <- ?app_assoc; cbn [app];
    (destruct (rc _ <? 0); cbn [opt_call dev trace]; rewrite <- ?app_assoc;
     reflexivity).
Qed.

(** C6: when enabling the clock fails, [__ov13b10_power_on] returns the
    clock's error and its last call is [clk_prepare_enable]: the power enable
    and the pin state set before it are left as they are.  When the clock
    started and the bulk enable of the supplies fails, it disables the clock
    and returns the supplies' error. *)
Theorem power_on_failure_paths (env : environment) (w : world) :
  let d := dev w in
  let h1 := trace w ++ power_on_head d in
  let r1 := rc (env h1 clk_prepare_enable) in
  let h2 := h1 ++ clk_prepare_enable ::
            opt_call (reset_gpio d) (fun g => gpiod_set_value_cansleep g 0) in
  let r2 := rc (env h2 (regulator_bulk_enable OV13B10_NUM_SUPPLIES)) in
  (r1 < 0 ->
   __ov13b10_power_on env w =
     Some (r1, {| dev := d; trace := h1 ++ [clk_prepare_enable] |})) /\
  (0 <= r1 -> r2 < 0 ->
   __ov13b10_power_on env w =
     Some (r2, {| dev := d;
                  trace := h2 ++ [regulator_bulk_enable OV13B10_NUM_SUPPLIES;
                                  clk_disable_unprepare] |})).
Proof.
  cbv zeta. rewrite power_on_run. cbv zeta. split.
  - intros H1. destruct (Z.ltb_spec (rc (env (trace w ++ power_on_head (dev w))
                                              clk_prepare_enable)) 0); [reflexivity | lia].
  - intros H1 H2.
    destruct (Z.ltb_spec (rc (env (trace w ++ power_on_head (dev w))
                                  clk_prepare_enable)) 0); [lia |].
    match goal with |- (if ?c <? 0 then _ else _) = _ =>
      destruct (Z.ltb_spec c 0); [reflexivity | lia] end.
Qed.

Lemma power_on_failure_paths_witness :
  __ov13b10_power_on clk_fail_env boot =
    Some (-22, {| dev := probed;
                  trace := [ gpiod_set_value_cansleep 0 1; usleep_range 1000 2000;
                             pinctrl_select_state 0; clk_set_rate 24000000;
                             clk_get_rate; clk_prepare_enable ] |}) /\
  __ov13b10_power_on regulator_fail_env boot =
    Some (-110, {| dev := probed;
                   trace := [ gpiod_set_value_cansleep 0 1; usleep_range 1000 2000;
                              pinctrl_select_state 0; clk_set_rate 24000000;
                              clk_get_rate; clk_prepare_enable;
                              gpiod_set_value_cansleep 1 0;
                              regulator_bulk_enable 3; clk_disable_unprepare ] |}).
Proof.
  split.
  - apply (proj1 (power_on_failure_paths clk_fail_env boot)). cbn. lia.
  - apply (proj2 (power_on_failure_paths regulator_fail_env boot)); cbn; lia.
Defined.

(** ** Streaming and power requests *)

Lemma with_mutex_idle (d : ov13b10) :
  mutex d = false -> with_mutex false (with_mutex true d) = d.
Proof. destruct d; cbn; intros ->; reflexivity. Qed.

Lemma with_mutex_streaming (b : bool) (d : ov13b10) :
  mutex d = false ->
  with_mutex false (with_streaming b (with_mutex true d)) = with_streaming b d.
Proof. destruct d; cbn; intros ->; reflexivity. Qed.

Lemma with_mutex_power_on (b : bool) (d : ov13b10) :
  mutex d = false ->
  with_mutex false (with_power_on b (with_mutex true d)) = with_power_on b d.
Proof. destruct d; cbn; intros ->; reflexivity. Qed.

(** C7: a stop request in the streaming state returns 0 and leaves the
    streaming flag clear whatever the bus answers to the standby write of the
    mode-control register: the result of the write is not looked at. *)
Theorem stop_stream_always_stops (env : environment) (w : world) :
  mutex (dev w) = false ->
  streaming (dev w) = true ->
  ov13b10_s_stream env 0 w =
    Some (0, {| dev := with_streaming false (dev w);
                trace := trace w ++ [write_standby; pm_runtime_put] |}) /\
  streaming (with_streaming false (dev w)) = false.
Proof.
  intros Hm Hs. split; [| reflexivity].
  destruct w as [d tr]. cbn [dev trace] in *.
  cbv [ov13b10_s_stream mutex_lock bind get_dev modify_dev undefined dev trace].
  rewrite Hm. cbn [mutex streaming with_mutex Z.eqb negb].
  rewrite Hs. cbn [Bool.eqb].
  unfold __ov13b10_stop_stream.
  rewrite write_reg_run by (unfold OV13B10_REG_VALUE_08BIT; lia).
  cbv zeta. cbn [dev trace].
  cbv [extern unlock_and_return mutex_unlock bind modify_dev ret dev trace].
  rewrite with_mutex_streaming by exact Hm.
  now rewrite <- app_assoc.
Qed.

Lemma stop_stream_always_stops_witness :
  ov13b10_s_stream dead_bus_env 0
    {| dev := with_streaming true probed; trace := [] |} =
    Some (0, {| dev := with_streaming false (with_streaming true probed);
                trace := [] ++ [write_standby; pm_runtime_put] |}) /\
  streaming (with_streaming false (with_streaming true probed)) = false.
Proof.
  apply (stop_stream_always_stops dead_bus_env
           {| dev := with_streaming true probed; trace := [] |});
    reflexivity.
Defined.

(** C8: a request for the state already held returns 0 and leaves the
    instance and the trace as they were, for [ov13b10_s_power] and for
    [ov13b10_s_stream]: the comparison with the current state, made once the
    instance lock is taken, goes straight to the unlock. *)
Theorem same_state_request_is_noop (env : environment) (on : Z) (w : world) :
  mutex (dev w) = false ->
  (power_on (dev w) = negb (on =? 0) -> ov13b10_s_power env on w = Some (0, w)) /\
  (streaming (dev w) = negb (on =? 0) -> ov13b10_s_stream env on w = Some (0, w)).
Proof.
  intros Hm. destruct w as [d tr]. cbn [dev trace] in *. split; intros Hsame.
  - cbv [ov13b10_s_power mutex_lock bind get_dev modify_dev undefined dev trace].
    rewrite Hm. cbn [power_on with_mutex]. rewrite Hsame, Bool.eqb_reflx.
    cbv [unlock_and_return mutex_unlock bind modify_dev ret dev trace].
    now rewrite with_mutex_idle.
  - cbv [ov13b10_s_stream mutex_lock bind get_dev modify_dev undefined dev trace].
    rewrite Hm. cbn [streaming with_mutex]. rewrite Hsame, Bool.eqb_reflx.
    cbv [unlock_and_return mutex_unlock bind modify_dev ret dev trace].
    now rewrite with_mutex_idle.
Qed.

Lemma same_state_request_is_noop_witness :
  ov13b10_s_power dead_bus_env 0 boot = Some (0, boot) /\
  ov13b10_s_stream dead_bus_env 0 boot = Some (0, boot) /\
  ov13b10_s_power dead_bus_env 1
    {| dev := with_power_on true probed; trace := [] |} =
    Some (0, {| dev := with_power_on true probed; trace := [] |}) /\
  ov13b10_s_stream dead_bus_env 7
    {| dev := with_streaming true probed; trace := [] |} =
    Some (0, {| dev := with_streaming true probed; trace := [] |}).
Proof.
  split; [| split; [| split]].
  - apply (proj1 (same_state_request_is_noop dead_bus_env 0 boot eq_refl)). reflexivity.
  - apply (proj2 (same_state_request_is_noop dead_bus_env 0 boot eq_refl)). reflexivity.
  - apply (proj1 (same_state_request_is_noop dead_bus_env 1
                    {| dev := with_power_on true probed; trace := [] |} eq_refl)).
    reflexivity.
  - apply (proj2 (same_state_request_is_noop dead_bus_env 7
                    {| dev := with_streaming true probed; trace := [] |} eq_refl)).
    reflexivity.
Defined.

(** The comparison is made under the lock: while the lock is held elsewhere
    neither request gets as far as reading the state. *)
Lemma request_waits_for_lock (env : environment) (on : Z) (w : world) :
  mutex (dev w) = true ->
  ov13b10_s_power env on w = None /\ ov13b10_s_stream env on w = None.
Proof.
  intros Hm. destruct w as [d tr]. cbn [dev trace] in *.
  cbv [ov13b10_s_power ov13b10_s_stream mutex_lock bind get_dev modify_dev
       undefined dev trace].
  now rewrite Hm.
Qed.

(** ** Range cascade of the vertical blank *)

Lemma set_ctrl_vblank_run (env : environment) (w : world) (v : Z) :
  let d := dev w in
  let h := height (cur_mode d) in
  16 <= h -> 0 <= v <= OV13B10_VTS_MAX - h ->
  exists ret_ e,
    ov13b10_set_ctrl env V4L2_CID_VBLANK v w =
      Some (ret_, {| dev := with_exposure e d;
                     trace := trace w ++ vblank_calls env (trace w) d v |}) /\
    maximum e = h + v - 16 /\
    minimum e = minimum (exposure d) /\
    step e = step (exposure d) /\
    default_value e = default_value (exposure d).
Proof.
  cbv zeta. unfold OV13B10_VTS_MAX. intros Hh Hv.
  destruct w as [d tr]. cbn [dev trace] in *.
  unfold vblank_calls, ov13b10_set_ctrl, __v4l2_ctrl_modify_range.
  cbv [bind get_dev extern modify_dev ret dev trace ctrl_of with_ctrl].
  rewrite (u32_small (height (cur_mode d) + v - 16)) by lia.
  fold (exposure_range_update d (height (cur_mode d) + v - 16)).
  destruct (rc (env (tr ++ [exposure_range_update d (height (cur_mode d) + v - 16)])
                    pm_runtime_get_if_in_use) =? 0).
  - eexists; eexists. split.
    + now rewrite <- app_assoc.
    + cbn [maximum minimum step default_value]. auto.
  - rewrite write_reg_run by (unfold OV13B10_REG_VALUE_16BIT; lia).
    cbv zeta. cbn [dev trace cur_mode with_exposure].
    unfold OV13B10_REG_VALUE_16BIT, OV13B10_REG_VTS.
    rewrite (u32_small (v + height (cur_mode d))) by lia.
    rewrite write_buf_16 by (unfold Int.u16; cbn; lia).
    change (Int.u16 0x380e / 256) with 0x38.
    change (Int.u16 0x380e mod 256) with 0x0e.
    fold (write_vts (v + height (cur_mode d))).
    eexists; eexists. split.
    + rewrite <- !app_assoc. reflexivity.
    + cbn [maximum minimum step default_value]. auto.
Qed.

Lemma catalog_mode_bounds (m : ov13b10_mode) :
  In m supported_modes -> 16 <= height m <= vts_def m.
Proof.
  intros Hin. repeat (destruct Hin as [<- | Hin]; [cbn; lia |]). destruct Hin.
Qed.

(** C3: for a vertical blank [v] the control accepts, [ov13b10_set_ctrl]
    first updates the range of the exposure control, whose maximum becomes
    [height + v - 16], and only then turns to the device, where the VTS write
    carries [v + height]; a second vertical blank [v2] moves the maximum to
    [height + v2 - 16] through the same calls, none of which sets the
    exposure. *)
Theorem vblank_cascade (env : environment) (w : world) (v v2 : Z) :
  let m := cur_mode (dev w) in
  In m supported_modes ->
  vblank_accepts m v ->
  vblank_accepts m v2 ->
  exists r1 w1 r2 w2,
    ov13b10_set_ctrl env V4L2_CID_VBLANK v w = Some (r1, w1) /\
    maximum (exposure (dev w1)) = height m + v - 16 /\
    trace w1 = trace w ++ vblank_calls env (trace w) (dev w) v /\
    ov13b10_set_ctrl env V4L2_CID_VBLANK v2 w1 = Some (r2, w2) /\
    maximum (exposure (dev w2)) = height m + v2 - 16 /\
    trace w2 = trace w1 ++ vblank_calls env (trace w1) (dev w1) v2.
Proof.
  cbv zeta. unfold vblank_accepts. intros Hin Hv Hv2.
  apply catalog_mode_bounds in Hin.
  destruct (set_ctrl_vblank_run env w v) as (r1 & e1 & Hrun1 & Hmax1 & _);
    [lia | lia |].
  set (w1 := {| dev := with_exposure e1 (dev w);
                trace := trace w ++ vblank_calls env (trace w) (dev w) v |}) in *.
  assert (Hmode : cur_mode (dev w1) = cur_mode (dev w)) by reflexivity.
  destruct (set_ctrl_vblank_run env w1 v2) as (r2 & e2 & Hrun2 & Hmax2 & _);
    cbv zeta; rewrite ?Hmode; [lia | lia |].
  exists r1, w1, r2. eexists.
  split; [exact Hrun1 |]. split; [exact Hmax1 |]. split; [reflexivity |].
  split; [exact Hrun2 |]. split; [| reflexivity].
  cbn [dev exposure with_exposure]. rewrite Hmax2. now rewrite Hmode.
Qed.

Lemma vblank_cascade_witness :
  exists r1 w1 r2 w2,
    ov13b10_set_ctrl quiet_env V4L2_CID_VBLANK 100 boot = Some (r1, w1) /\
    maximum (exposure (dev w1)) = height (cur_mode (dev boot)) + 100 - 16 /\
    trace w1 = trace boot ++ vblank_calls quiet_env (trace boot) (dev boot) 100 /\
    ov13b10_set_ctrl quiet_env V4L2_CID_VBLANK 500 w1 = Some (r2, w2) /\
    maximum (exposure (dev w2)) = height (cur_mode (dev boot)) + 500 - 16 /\
    trace w2 = trace w1 ++ vblank_calls quiet_env (trace w1) (dev w1) 500.
Proof.
  apply (vblank_cascade quiet_env boot 100 500).
  - cbn. now left.
  - unfold vblank_accepts. cbn. lia.
  - unfold vblank_accepts. cbn. lia.
Defined.

Example vblank_cascade_trace :
  option_map (fun rw => (fst rw, maximum (exposure (dev (snd rw))), trace (snd rw)))
    (ov13b10_set_ctrl quiet_env V4L2_CID_VBLANK 100 boot) =
  Some (0, 3204,
        [ v4l2_ctrl_modify_range V4L2_CID_EXPOSURE 4 3204 1 3072;
          pm_runtime_get_if_in_use;
          i2c_master_send [0x38; 0x0e; 0x0c; 0x94];
          pm_runtime_put ]).
Proof. reflexivity. Qed.

(** ** Start of streaming *)

Lemma sentinel_free_Forall (regs : list regval) :
  sentinel_free regs = true -> Forall (fun r => addr r <> REG_NULL) regs.
Proof.
  unfold sentinel_free. rewrite forallb_forall, Forall_forall.
  intros H r Hin. specialize (H r Hin).
  destruct (Z.eqb_spec (addr r) REG_NULL); [discriminate | assumption].
Qed.

(** None of the register tables of the driver carries the sentinel the loop
    of [ov13b10_write_array] stops at. *)
Lemma tables_lack_sentinel :
  sentinel_free ov13b10_global_regs = true /\
  Forall (fun m => sentinel_free (reg_list m) = true) supported_modes.
Proof. split; [reflexivity | repeat constructor]. Qed.

(** On a bus that takes every write, a program without sentinel is sent in
    full and the loop then reads past its last entry. *)
Lemma write_array_off_the_end (env : environment) (regs : list regval) (w : world) :
  sentinel_free regs = true ->
  all_accepted env (trace w) (map single_byte_write regs) ->
  ov13b10_write_array env regs w = None.
Proof.
  intros Hfree Hacc. apply sentinel_free_Forall in Hfree.
  rewrite <- (app_nil_r regs).
  now rewrite write_array_accepted_prefix.
Qed.

(** C2 (the code departs from it): the register tables of the five modes
    have no [REG_NULL] entry, so on a bus that takes every write the start of
    streaming sends the whole table of the active mode and then reads past its
    end; no control is applied and the mode-control register is not written
    by any defined behaviour.  This holds for the mode set at probe time and
    for every other mode of the catalog. *)
Theorem start_stream_runs_off_register_table :
  Forall (fun m => sentinel_free (reg_list m) = true) supported_modes /\
  ov13b10_s_stream quiet_env 1 powered = None /\
  Forall (fun m => ov13b10_s_stream quiet_env 1
                     {| dev := with_cur_mode m (with_power_on true probed);
                        trace := [] |} = None) supported_modes.
Proof.
  split; [apply tables_lack_sentinel |].
  split; [vm_compute; reflexivity |].
  repeat constructor; vm_compute; reflexivity.
Qed.

(** With a program closed by the sentinel the same request issues the
    program, then the held value of each control, then the streaming value of
    the mode-control register, and sets the streaming flag. *)
Example start_stream_closed_program :
  option_map (fun rw => (fst rw, streaming (dev (snd rw)), trace (snd rw)))
    (ov13b10_s_stream quiet_env 1 powered_closed) =
  Some (0, true,
        [ pm_runtime_get_sync;
          i2c_master_send [0x03; 0x05; 0xaf];
          i2c_master_send [0x35; 0x01; 0x0c];
          v4l2_ctrl_modify_range V4L2_CID_EXPOSURE 4 3180 1 3072;
          pm_runtime_get_if_in_use;
          i2c_master_send [0x38; 0x0e; 0x0c; 0x7c];
          pm_runtime_put;
          pm_runtime_get_if_in_use;
          i2c_master_send [0x35; 0x00; 0x00; 0x0c; 0x00];
          pm_runtime_put;
          pm_runtime_get_if_in_use;
          i2c_master_send [0x35; 0x0a; 0x00];
          i2c_master_send [0x35; 0x0b; 0x80];
          pm_runtime_put;
          pm_runtime_get_if_in_use;
          i2c_master_send [0x50; 0x80; 0x00];
          pm_runtime_put;
          write_streaming ]).
Proof. vm_compute. reflexivity. Qed.

(** With such a program a failed write stops the request, which returns the
    error and leaves the streaming flag clear. *)
Example start_stream_closed_program_bus_error :
  option_map (fun rw => (fst rw, streaming (dev (snd rw)), trace (snd rw)))
    (ov13b10_s_stream (fail_after_env 2) 1 powered_closed) =
  Some (- EIO, false,
        [ pm_runtime_get_sync;
          i2c_master_send [0x03; 0x05; 0xaf];
          i2c_master_send [0x35; 0x01; 0x0c];
          pm_runtime_put ]).
Proof. vm_compute. reflexivity. Qed.

(** *** The streaming flag and the order of calls on the way to streaming *)

Lemma keeps_bind {A B : Type} (m : M A) (k : A -> M B) :
  keeps_streaming m -> (forall a, keeps_streaming (k a)) -> keeps_streaming (bind m k).
Proof.
  intros Hm Hk w b w'. unfold bind.
  destruct (m w) as [[a w1] |] eqn:E; [| discriminate].
  intros H. destruct (Hk a _ _ _ H) as [Hs2 [t2 Ht2]].
  destruct (Hm _ _ _ E) as [Hs1 [t1 Ht1]].
  split; [congruence |]. exists (t1 ++ t2). now rewrite Ht2, Ht1, app_assoc.
Qed.

Lemma keeps_ret {A : Type} (a : A) : keeps_streaming (ret a).
Proof.
  intros w a' w' H. inversion H; subst. split; [reflexivity |].
  exists []. now rewrite app_nil_r.
Qed.

Lemma keeps_undefined {A : Type} : keeps_streaming (@undefined A).
Proof. intros w a w' H. discriminate H. Qed.

Lemma keeps_get_dev : keeps_streaming get_dev.
Proof.
  intros w a w' H. inversion H; subst. split; [reflexivity |].
  exists []. now rewrite app_nil_r.
Qed.

Lemma keeps_extern (env : environment) (c : call) : keeps_streaming (extern env c).
Proof.
  intros w a w' H. inversion H; subst. split; [reflexivity |]. now exists [c].
Qed.

Lemma keeps_modify_dev (f : ov13b10 -> ov13b10) :
  (forall d, streaming (f d) = streaming d) -> keeps_streaming (modify_dev f).
Proof.
  intros Hf w a w' H. inversion H; subst. cbn [dev trace]. split; [apply Hf |].
  exists []. now rewrite app_nil_r.
Qed.

Lemma with_ctrl_streaming (id : ctrl_id) (c : v4l2_ctrl) (d : ov13b10) :
  streaming (with_ctrl id c d) = streaming d.
Proof. now destruct id. Qed.

Create HintDb keeps.
#[local] Hint Resolve keeps_ret keeps_undefined keeps_get_dev keeps_extern
  with_ctrl_streaming : keeps.

Ltac keeps :=
  repeat first
    [ apply keeps_bind; [| intros ?]
    | apply keeps_modify_dev; intros ?
    | solve [auto with keeps]
    | match goal with
      | |- keeps_streaming (if ?c then _ else _) => destruct c
      | |- keeps_streaming (match ?x with _ => _ end) => destruct x
      end ].

Lemma keeps_write_reg (env : environment) (reg len val : Z) :
  keeps_streaming (ov13b10_write_reg env reg len val).
Proof. unfold ov13b10_write_reg. keeps. Qed.

#[local] Hint Resolve keeps_write_reg : keeps.

Lemma keeps_write_array (env : environment) (regs : list regval) :
  keeps_streaming (ov13b10_write_array env regs).
Proof.
  induction regs as [| r regs IH]; cbn [ov13b10_write_array]; keeps.
Qed.

Lemma keeps_set_ctrl (env : environment) (id : ctrl_id) (v : Z) :
  keeps_streaming (ov13b10_set_ctrl env id v).
Proof.
  unfold ov13b10_set_ctrl, __v4l2_ctrl_modify_range, ov13b10_enable_test_pattern.
  keeps.
Qed.

#[local] Hint Resolve keeps_write_array keeps_set_ctrl : keeps.

Lemma keeps_setup_ctrls (env : environment) (ids : list ctrl_id) :
  keeps_streaming (setup_ctrls env ids).
Proof.
  induction ids as [| id ids IH]; cbn [setup_ctrls]; keeps.
Qed.

Lemma keeps_start_stream (env : environment) :
  keeps_streaming (__ov13b10_start_stream env).
Proof.
  pose proof (keeps_setup_ctrls env ops_ctrls).
  unfold __ov13b10_start_stream, v4l2_ctrl_handler_setup, mutex_lock, mutex_unlock.
  keeps; reflexivity.
Qed.

(** Whatever the environment, a start request that returns leaves the
    streaming flag set exactly when it returns 0: an error of the resume, of
    the program, of a control or of the last write leaves the flag clear and
    is the value returned. *)
Lemma start_request_flag (env : environment) (on : Z) (w : world) (r : Z) (w' : world) :
  on <> 0 ->
  streaming (dev w) = false ->
  ov13b10_s_stream env on w = Some (r, w') ->
  streaming (dev w') = (r =? 0).
Proof.
  intros Hon Hs. unfold ov13b10_s_stream.
  destruct (Z.eqb_spec on 0) as [E | _]; [contradiction |]. cbn [negb].
  destruct w as [d tr]. cbn [dev trace] in Hs.
  unfold mutex_lock, unlock_and_return, mutex_unlock.
  cbv [bind get_dev modify_dev undefined ret extern dev trace].
  destruct (mutex d); [discriminate |].
  cbn [streaming with_mutex]. rewrite Hs. cbn [Bool.eqb].
  destruct (Z.ltb_spec (rc (env tr pm_runtime_get_sync)) 0) as [Hneg | Hpos].
  - intros H. inversion H; subst. cbn [dev streaming with_mutex].
    rewrite Hs. symmetry. apply Z.eqb_neq. lia.
  - destruct (__ov13b10_start_stream env _) as [[ret_ w1] |] eqn:Estart; [| discriminate].
    apply keeps_start_stream in Estart. destruct Estart as [Estart _].
    cbn [dev streaming with_mutex] in Estart.
    destruct w1 as [d1 tr1]. cbn [dev] in Estart.
    destruct (Z.eqb_spec ret_ 0) as [E0 | En0]; cbn [negb]; intros H;
      inversion H; subst; cbn [dev streaming with_mutex with_streaming].
    + reflexivity.
    + rewrite Estart, Hs. symmetry. now apply Z.eqb_neq.
Qed.

(** A program closed by the sentinel that returns 0 has sent each entry
    before the sentinel, in order, and nothing else. *)
Lemma write_array_success_trace (env : environment) (pre : list regval) (v0 : Z)
    (rest : list regval) :
  Forall (fun r => addr r <> REG_NULL) pre ->
  forall w w',
    ov13b10_write_array env (pre ++ rv REG_NULL v0 :: rest) w = Some (0, w') ->
    w' = {| dev := dev w; trace := trace w ++ map single_byte_write pre |}.
Proof.
  induction 1 as [| r pre Hr Hpre IH]; intros w w' Hrun.
  - cbn [app] in Hrun. rewrite write_array_sentinel in Hrun. inversion Hrun; subst.
    cbn [map]. rewrite app_nil_r. now destruct w'.
  - cbn [app] in Hrun. rewrite write_array_entry in Hrun by exact Hr.
    cbv zeta in Hrun.
    destruct (rc (env (trace w) (single_byte_write r)) =? 3); [| discriminate Hrun].
    apply IH in Hrun. subst w'. cbn [dev trace map].
    now rewrite <- app_assoc.
Qed.

Lemma start_stream_success (env : environment) (w w' : world)
    (pre : list regval) (v0 : Z) (rest : list regval) :
  reg_list (cur_mode (dev w)) = pre ++ rv REG_NULL v0 :: rest ->
  Forall (fun r => addr r <> REG_NULL) pre ->
  __ov13b10_start_stream env w = Some (0, w') ->
  exists w2 setup_calls,
    v4l2_ctrl_handler_setup env
      {| dev := with_mutex false (dev w);
         trace := trace w ++ map single_byte_write pre |} = Some (0, w2) /\
    trace w2 = (trace w ++ map single_byte_write pre) ++ setup_calls /\
    trace w' = trace w2 ++ [write_streaming].
Proof.
  intros Hprog Hpre. unfold __ov13b10_start_stream.
  unfold bind at 1. cbn [get_dev]. rewrite Hprog.
  unfold bind at 1.
  destruct (ov13b10_write_array env _ w) as [[r1 w1] |] eqn:Eprog; [| discriminate].
  destruct (Z.eqb_spec r1 0) as [-> | Hr1]; cbn [negb].
  2:{ intros H. inversion H. contradiction. }
  apply write_array_success_trace in Eprog; [| exact Hpre]. subst w1.
  unfold mutex_unlock. unfold bind at 1. cbv [modify_dev dev trace].
  unfold bind at 1.
  destruct (v4l2_ctrl_handler_setup env _) as [[r2 w2] |] eqn:Esetup; [| discriminate].
  pose proof (keeps_setup_ctrls env ops_ctrls _ _ _ Esetup) as [_ [tc Htc]].
  cbn [trace] in Htc.
  unfold mutex_lock. cbv [bind get_dev modify_dev undefined ret].
  destruct (mutex (dev w2)); [discriminate |].
  destruct (Z.eqb_spec r2 0) as [-> | Hr2]; cbn [negb].
  2:{ intros H. inversion H. contradiction. }
  rewrite write_reg_run by (unfold OV13B10_REG_VALUE_08BIT; lia).
  cbv zeta. cbn [dev trace].
  change (i2c_master_send _) with write_streaming.
  intros H. inversion H; subst. cbn [trace].
  exists w2, tc. auto.
Qed.

(** On a program closed by the sentinel, a start request that succeeds has
    made its calls in this order: the resume, one write per entry of the
    program, the calls of the setup pass over the controls, the streaming
    value of the mode-control register. *)
Lemma start_request_order (env : environment) (on : Z) (w w' : world)
    (pre : list regval) (v0 : Z) (rest : list regval) :
  on <> 0 ->
  streaming (dev w) = false ->
  reg_list (cur_mode (dev w)) = pre ++ rv REG_NULL v0 :: rest ->
  Forall (fun r => addr r <> REG_NULL) pre ->
  ov13b10_s_stream env on w = Some (0, w') ->
  exists w1 w2 setup_calls,
    trace w1 = trace w ++ pm_runtime_get_sync :: map single_byte_write pre /\
    v4l2_ctrl_handler_setup env w1 = Some (0, w2) /\
    trace w2 = trace w1 ++ setup_calls /\
    trace w' = trace w ++ pm_runtime_get_sync :: map single_byte_write pre ++
               setup_calls ++ [write_streaming].
Proof.
  intros Hon Hs Hprog Hpre. unfold ov13b10_s_stream.
  destruct (Z.eqb_spec on 0) as [E | _]; [contradiction |]. cbn [negb].
  destruct w as [d tr]. cbn [dev trace] in *.
  unfold mutex_lock, unlock_and_return, mutex_unlock.
  cbv [bind get_dev modify_dev undefined ret extern dev trace].
  destruct (mutex d) eqn:Hm; [discriminate |].
  cbn [streaming with_mutex]. rewrite Hs. cbn [Bool.eqb].
  destruct (Z.ltb_spec (rc (env tr pm_runtime_get_sync)) 0) as [Hneg | Hpos].
  { intros H. inversion H. lia. }
  destruct (__ov13b10_start_stream env _) as [[r1 w1] |] eqn:Estart; [| discriminate].
  destruct w1 as [d1 tr1].
  destruct (Z.eqb_spec r1 0) as [-> | Hr1]; cbn [negb]; intros H; inversion H; subst.
  2:{ contradiction. }
  apply (start_stream_success env _ _ pre v0 rest) in Estart;
    [| exact Hprog | exact Hpre].
  destruct Estart as (w2 & tc & Hsetup & Htc & Htr). cbn [dev trace] in *.
  eexists; exists w2, tc. split; [| split; [exact Hsetup | split]].
  - cbn [trace]. now rewrite <- app_assoc.
  - exact Htc.
  - rewrite Htr, Htc. rewrite <- !app_assoc. reflexivity.
Qed.

(** * Further properties of the driver *)

(** ** The selector on every request *)

Lemma best_fit_step_index (framefmt : v4l2_mbus_framefmt) (st : Z * Z)
    (i : Z) (m : ov13b10_mode) :
  fst (best_fit_step framefmt st (i, m)) = i \/
  fst (best_fit_step framefmt st (i, m)) = fst st.
Proof.
  destruct st as [b bd]. unfold best_fit_step.
  destruct ((bd =? -1) || _); cbn [fst]; auto.
Qed.

Lemma best_fit_fold_bound (framefmt : v4l2_mbus_framefmt) (l : list ov13b10_mode) :
  forall (i : Z) (st : Z * Z),
    0 <= i ->
    0 <= fst st < Z.max 1 i ->
    0 <= fst (fold_left (best_fit_step framefmt) (indexed i l) st)
      < Z.max 1 (i + Z.of_nat (length l)).
Proof.
  induction l as [| m l IH]; intros i st Hi Hst.
  - cbn [indexed fold_left length Z.of_nat]. lia.
  - cbn [indexed fold_left].
    replace (i + Z.of_nat (length (m :: l))) with (i + 1 + Z.of_nat (length l))
      by (cbn [length]; lia).
    apply IH; [lia |].
    destruct (best_fit_step_index framefmt st i m) as [-> | ->]; lia.
Qed.

Lemma best_fit_index_range (framefmt : v4l2_mbus_framefmt) :
  0 <= best_fit_index framefmt < 5.
Proof.
  unfold best_fit_index.
  pose proof (best_fit_fold_bound framefmt supported_modes 0 (0, -1)) as H.
  cbn [fst length supported_modes Z.of_nat] in H.
  change (Z.max 1 (0 + Z.pos (Pos.of_succ_nat 4))) with 5 in H.
  apply H; cbn; lia.
Qed.

Lemma mode_at_cases (i : Z) :
  0 <= i < 5 ->
  i = 0 \/ i = 1 \/ i = 2 \/ i = 3 \/ i = 4.
Proof. lia. Qed.

(** X1: whatever width and height are requested, also those for which the
    32-bit distances wrap, [ov13b10_find_best_fit] returns an entry of
    [supported_modes]: the index it ends on is never outside the table. *)
Theorem find_best_fit_in_catalog (framefmt : v4l2_mbus_framefmt) :
  In (ov13b10_find_best_fit framefmt) supported_modes /\
  exists i, (i < length supported_modes)%nat /\
            nth_error supported_modes i = Some (ov13b10_find_best_fit framefmt).
Proof.
  unfold ov13b10_find_best_fit.
  pose proof (best_fit_index_range framefmt) as Hi.
  destruct (mode_at_cases _ Hi) as [E | [E | [E | [E | E]]]]; rewrite E.
  - split; [cbn; tauto |]. exists 0%nat. split; [cbn; lia | reflexivity].
  - split; [cbn; tauto |]. exists 1%nat. split; [cbn; lia | reflexivity].
  - split; [cbn; tauto |]. exists 2%nat. split; [cbn; lia | reflexivity].
  - split; [cbn; tauto |]. exists 3%nat. split; [cbn; lia | reflexivity].
  - split; [cbn; tauto |]. exists 4%nat. split; [cbn; lia | reflexivity].
Qed.

Lemma find_best_fit_catalog_size (i : Z) :
  0 <= i < 5 ->
  ov13b10_find_best_fit (fmt_size (mode_fmt (mode_at i))) = mode_at i.
Proof.
  intros Hi.
  destruct (mode_at_cases _ Hi) as [E | [E | [E | [E | E]]]]; rewrite E;
    vm_compute; reflexivity.
Qed.

(** X2: the size of every catalog entry is selected as that very entry, and
    so the selection is stable: asking for the size the selector returned
    returns the same entry again, for every request. *)
Theorem find_best_fit_stable (framefmt : v4l2_mbus_framefmt) :
  Forall (fun m => ov13b10_find_best_fit (fmt_size (mode_fmt m)) = m) supported_modes /\
  ov13b10_find_best_fit (fmt_size (mode_fmt (ov13b10_find_best_fit framefmt))) =
    ov13b10_find_best_fit framefmt.
Proof.
  split.
  - repeat constructor; vm_compute; reflexivity.
  - unfold ov13b10_find_best_fit at 2 3.
    apply find_best_fit_catalog_size, best_fit_index_range.
Qed.

(** ** Enumeration of frame sizes *)

(** X6: [ov13b10_enum_frame_sizes] succeeds exactly for an index below the
    number of modes together with the one media bus code; it then reports a
    discrete size (minimum equal to maximum) which, requested through the
    selector, gives the entry enumerated.  Otherwise it returns [-EINVAL] and
    leaves the enumeration record as it was. *)
Theorem enum_frame_sizes_granted (fse : v4l2_subdev_frame_size_enum) :
  let r := ov13b10_enum_frame_sizes fse in
  let i := Int.u32 (fse_index fse) in
  (fst r = 0 <-> i < 5 /\ fse_code fse = MEDIA_BUS_FMT_SGRBG10_1X10) /\
  (fst r <> 0 -> fst r = - EINVAL /\ snd r = fse) /\
  (fst r = 0 ->
   min_width (snd r) = max_width (snd r) /\
   min_height (snd r) = max_height (snd r) /\
   ov13b10_find_best_fit {| fmt_width := max_width (snd r);
                            fmt_height := max_height (snd r) |} = mode_at i).
Proof.
  cbv zeta. unfold ov13b10_enum_frame_sizes.
  assert (Hi : 0 <= Int.u32 (fse_index fse))
    by (unfold Int.u32; apply Z.mod_pos_bound; lia).
  change (Z.of_nat (length supported_modes)) with 5.
  destruct (Z.leb_spec 5 (Int.u32 (fse_index fse))) as [Hge | Hlt]; cbn [fst snd].
  - split; [split; [discriminate | lia] |].
    split; [auto | discriminate].
  - destruct (Z.eqb_spec (fse_code fse) MEDIA_BUS_FMT_SGRBG10_1X10) as [Hc | Hc];
      cbn [negb fst snd].
    + split; [tauto |]. split; [congruence |]. intros _.
      cbn [min_width max_width min_height max_height].
      split; [reflexivity |]. split; [reflexivity |].
      apply (find_best_fit_catalog_size (Int.u32 (fse_index fse))). lia.
    + split; [split; [discriminate | tauto] |].
      split; [auto | discriminate].
Qed.

(** ** Format negotiation *)

Lemma clamp_in_range (lo hi v : Z) : lo <= hi -> lo <= clamp lo hi v <= hi.
Proof.
  intros H. unfold clamp.
  destruct (Z.ltb_spec v lo); [lia |]. destruct (Z.ltb_spec hi v); lia.
Qed.

(** X3: a trial negotiation leaves the instance and the trace as they were:
    the active mode, the controls and the flags are not touched and nothing is
    called.  With the subdev API it returns 0 and stores the best-fit format
    as the try format, which a trial [ov13b10_get_fmt] hands back; without it
    it returns [-ENOTTY] and the try format stays. *)
Theorem set_fmt_try_keeps_instance (env : environment) (api : bool)
    (sd_state : mbus_fmt) (fmt : v4l2_subdev_format) (w : world) :
  mutex (dev w) = false ->
  sf_which fmt = V4L2_SUBDEV_FORMAT_TRY ->
  let out := {| sf_which := sf_which fmt;
                sf_format := mode_fmt (ov13b10_find_best_fit
                                         (fmt_size (sf_format fmt))) |} in
  ov13b10_set_fmt env api sd_state fmt w =
    Some ((if api then 0 else - ENOTTY,
           if api then sf_format out else sd_state, out), w) /\
  ov13b10_get_fmt true (sf_format out) fmt w = Some ((0, out), w).
Proof.
  intros Hm Hwhich. cbv zeta. destruct w as [d tr]. cbn [dev trace] in Hm.
  unfold ov13b10_set_fmt, ov13b10_get_fmt, mutex_lock, mutex_unlock.
  cbv [bind get_dev modify_dev undefined ret dev trace].
  rewrite Hm. cbn [sf_which sf_format]. rewrite Hwhich.
  cbn [Z.eqb V4L2_SUBDEV_FORMAT_TRY].
  destruct api; cbv beta iota; rewrite !with_mutex_idle by exact Hm;
    split; reflexivity.
Qed.

Lemma set_fmt_try_keeps_instance_witness :
  let fmt := {| sf_which := V4L2_SUBDEV_FORMAT_TRY;
                sf_format := {| fmt_size := {| fmt_width := 1920; fmt_height := 1080 |};
                                fmt_code := 0; fmt_field := 0 |} |} in
  let out := {| sf_which := sf_which fmt;
                sf_format := mode_fmt (ov13b10_find_best_fit
                                         (fmt_size (sf_format fmt))) |} in
  (ov13b10_set_fmt dead_bus_env true (mode_fmt (mode_at 0)) fmt powered =
     Some ((0, sf_format out, out), powered) /\
   ov13b10_get_fmt true (sf_format out) fmt powered =
     Some ((0, out), powered)) /\
  fmt_size (sf_format out) = {| fmt_width := 2080; fmt_height := 1170 |}.
Proof.
  cbv zeta. split; [| reflexivity].
  apply (set_fmt_try_keeps_instance dead_bus_env true (mode_fmt (mode_at 0))
           {| sf_which := V4L2_SUBDEV_FORMAT_TRY;
              sf_format := {| fmt_size := {| fmt_width := 1920; fmt_height := 1080 |};
                              fmt_code := 0; fmt_field := 0 |} |} powered);
    reflexivity.
Defined.

Lemma set_fmt_active_run (env : environment) (api : bool) (sd_state : mbus_fmt)
    (fmt : v4l2_subdev_format) (w : world) :
  mutex (dev w) = false ->
  sf_which fmt <> V4L2_SUBDEV_FORMAT_TRY ->
  let m := ov13b10_find_best_fit (fmt_size (sf_format fmt)) in
  let h_blank := Int.u32 (hts_def m - width m) in
  let vblank_def := Int.u32 (vts_def m - height m) in
  let vblank_max := Int.u32 (OV13B10_VTS_MAX - height m) in
  exists d',
    ov13b10_set_fmt env api sd_state fmt w =
      Some ((0, sd_state, {| sf_which := sf_which fmt; sf_format := mode_fmt m |}),
            {| dev := d';
               trace := trace w ++
                 [ v4l2_ctrl_modify_range V4L2_CID_HBLANK h_blank h_blank 1 h_blank;
                   v4l2_ctrl_modify_range V4L2_CID_VBLANK vblank_def vblank_max 1
                     vblank_def ] |}) /\
    cur_mode d' = m /\
    mutex d' = false /\
    streaming d' = streaming (dev w) /\
    power_on d' = power_on (dev w) /\
    exposure d' = exposure (dev w) /\
    vblank d' = {| minimum := vblank_def; maximum := vblank_max; step := 1;
                   default_value := vblank_def;
                   cur_val := clamp vblank_def vblank_max (cur_val (vblank (dev w))) |}.
Proof.
  intros Hm Hwhich. cbv zeta. destruct w as [d tr]. cbn [dev trace] in *.
  unfold ov13b10_set_fmt, __v4l2_ctrl_modify_range, mutex_lock, mutex_unlock.
  cbv [bind get_dev modify_dev undefined ret extern dev trace].
  rewrite Hm. cbn [sf_which sf_format].
  destruct (Z.eqb_spec (sf_which fmt) V4L2_SUBDEV_FORMAT_TRY) as [E | _];
    [contradiction |].
  cbn [ctrl_of with_ctrl]. eexists. split.
  - rewrite <- app_assoc. reflexivity.
  - destruct d. cbn. auto 10.
Qed.

(** X4: a committed negotiation returns 0 and makes the best-fit entry the
    active mode, whatever the streaming flag is; the streaming and power
    flags keep their values, the lock is free again, and [ov13b10_get_fmt]
    and [ov13b10_g_frame_interval] then report the format the call returned
    and the frame interval of that entry. *)
Theorem set_fmt_active_then_get (env : environment) (api : bool) (sd_state : mbus_fmt)
    (fmt : v4l2_subdev_format) (w : world) :
  mutex (dev w) = false ->
  sf_which fmt <> V4L2_SUBDEV_FORMAT_TRY ->
  let m := ov13b10_find_best_fit (fmt_size (sf_format fmt)) in
  let out := {| sf_which := sf_which fmt; sf_format := mode_fmt m |} in
  exists w',
    ov13b10_set_fmt env api sd_state fmt w = Some ((0, sd_state, out), w') /\
    cur_mode (dev w') = m /\
    streaming (dev w') = streaming (dev w) /\
    power_on (dev w') = power_on (dev w) /\
    mutex (dev w') = false /\
    ov13b10_get_fmt api sd_state fmt w' = Some ((0, out), w') /\
    ov13b10_g_frame_interval w' = Some ((0, max_fps m), w').
Proof.
  intros Hm Hwhich. cbv zeta.
  destruct (set_fmt_active_run env api sd_state fmt w Hm Hwhich)
    as (d' & Hrun & Hmode & Hmutex & Hs & Hp & _).
  eexists. split; [exact Hrun |]. cbn [dev].
  split; [exact Hmode |]. split; [exact Hs |]. split; [exact Hp |].
  split; [exact Hmutex |]. split.
  - unfold ov13b10_get_fmt, mutex_lock, mutex_unlock.
    cbv [bind get_dev modify_dev undefined ret dev trace].
    rewrite Hmutex.
    destruct (Z.eqb_spec (sf_which fmt) V4L2_SUBDEV_FORMAT_TRY) as [E | _];
      [contradiction |].
    rewrite with_mutex_idle by exact Hmutex. now rewrite Hmode.
  - unfold ov13b10_g_frame_interval. cbv [bind get_dev ret dev]. now rewrite Hmode.
Qed.

Lemma set_fmt_active_then_get_witness :
  let fmt := {| sf_which := V4L2_SUBDEV_FORMAT_ACTIVE;
                sf_format := {| fmt_size := {| fmt_width := 4000; fmt_height := 2300 |};
                                fmt_code := 0; fmt_field := 0 |} |} in
  let w := {| dev := with_streaming true probed; trace := [] |} in
  let m := ov13b10_find_best_fit (fmt_size (sf_format fmt)) in
  let out := {| sf_which := sf_which fmt; sf_format := mode_fmt m |} in
  (exists w',
     ov13b10_set_fmt quiet_env true (mode_fmt (mode_at 0)) fmt w =
       Some ((0, mode_fmt (mode_at 0), out), w') /\
     cur_mode (dev w') = m /\
     streaming (dev w') = streaming (dev w) /\
     power_on (dev w') = power_on (dev w) /\
     mutex (dev w') = false /\
     ov13b10_get_fmt true (mode_fmt (mode_at 0)) fmt w' = Some ((0, out), w') /\
     ov13b10_g_frame_interval w' = Some ((0, max_fps m), w')) /\
  m = mode_at 2.
Proof.
  cbv zeta. split; [| reflexivity].
  apply (set_fmt_active_then_get quiet_env true (mode_fmt (mode_at 0))
           {| sf_which := V4L2_SUBDEV_FORMAT_ACTIVE;
              sf_format := {| fmt_size := {| fmt_width := 4000; fmt_height := 2300 |};
                              fmt_code := 0; fmt_field := 0 |} |}
           {| dev := with_streaming true probed; trace := [] |}).
  - reflexivity.
  - discriminate.
Defined.

Lemma catalog_blanking (m : ov13b10_mode) :
  In m supported_modes ->
  Int.u32 (vts_def m - height m) = vts_def m - height m /\
  Int.u32 (OV13B10_VTS_MAX - height m) = OV13B10_VTS_MAX - height m /\
  Int.u32 (hts_def m - width m) = 2 ^ 32 + hts_def m - width m /\
  vts_def m - height m <= OV13B10_VTS_MAX - height m.
Proof.
  intros Hin.
  repeat (destruct Hin as [<- | Hin];
          [repeat split; try reflexivity; vm_compute; discriminate |]).
  destruct Hin.
Qed.

Lemma find_best_fit_In (framefmt : v4l2_mbus_framefmt) :
  In (ov13b10_find_best_fit framefmt) supported_modes.
Proof.
  unfold ov13b10_find_best_fit.
  destruct (mode_at_cases _ (best_fit_index_range framefmt))
    as [E | [E | [E | [E | E]]]]; rewrite E; cbn; tauto.
Qed.

(** X5: a committed negotiation passes two range updates to the control
    framework and nothing else: the horizontal blank with
    [hts_def - width], which wraps in [u32] since every entry has
    [hts_def < width], and the vertical blank from [vts_def - height] to
    [OV13B10_VTS_MAX - height] with the lower end as default.  The vertical
    blank held afterwards is one the control accepts for the new mode. *)
Theorem set_fmt_active_vblank_range (env : environment) (api : bool)
    (sd_state : mbus_fmt) (fmt : v4l2_subdev_format) (w : world) :
  mutex (dev w) = false ->
  sf_which fmt <> V4L2_SUBDEV_FORMAT_TRY ->
  exists out w',
    ov13b10_set_fmt env api sd_state fmt w = Some ((0, sd_state, out), w') /\
    let m := cur_mode (dev w') in
    In m supported_modes /\
    minimum (vblank (dev w')) = vts_def m - height m /\
    maximum (vblank (dev w')) = OV13B10_VTS_MAX - height m /\
    default_value (vblank (dev w')) = vts_def m - height m /\
    vblank_accepts m (cur_val (vblank (dev w'))) /\
    trace w' = trace w ++
      [ v4l2_ctrl_modify_range V4L2_CID_HBLANK
          (2 ^ 32 + hts_def m - width m) (2 ^ 32 + hts_def m - width m) 1
          (2 ^ 32 + hts_def m - width m);
        v4l2_ctrl_modify_range V4L2_CID_VBLANK
          (vts_def m - height m) (OV13B10_VTS_MAX - height m) 1
          (vts_def m - height m) ].
Proof.
  intros Hm Hwhich.
  destruct (set_fmt_active_run env api sd_state fmt w Hm Hwhich)
    as (d' & Hrun & Hmode & _ & _ & _ & _ & Hvb).
  cbv zeta in Hrun, Hvb.
  pose proof (find_best_fit_In (fmt_size (sf_format fmt))) as Hin.
  destruct (catalog_blanking _ Hin) as (Ev & Emax & Eh & Hle).
  rewrite Ev, Emax, Eh in Hrun. rewrite Ev, Emax in Hvb.
  eexists. eexists. split; [exact Hrun |].
  cbv zeta. cbn [dev trace]. rewrite Hmode, Hvb.
  cbn [minimum maximum default_value cur_val].
  split; [exact Hin |]. repeat split; try reflexivity.
  - apply clamp_in_range, Hle.
  - apply clamp_in_range, Hle.
Qed.

Lemma set_fmt_active_vblank_range_witness :
  exists out w',
    ov13b10_set_fmt quiet_env true (mode_fmt (mode_at 0))
      {| sf_which := V4L2_SUBDEV_FORMAT_ACTIVE;
         sf_format := {| fmt_size := {| fmt_width := 2000; fmt_height := 1000 |};
                         fmt_code := 0; fmt_field := 0 |} |} boot =
      Some ((0, mode_fmt (mode_at 0), out), w') /\
    let m := cur_mode (dev w') in
    In m supported_modes /\
    minimum (vblank (dev w')) = vts_def m - height m /\
    maximum (vblank (dev w')) = OV13B10_VTS_MAX - height m /\
    default_value (vblank (dev w')) = vts_def m - height m /\
    vblank_accepts m (cur_val (vblank (dev w'))) /\
    trace w' = trace boot ++
      [ v4l2_ctrl_modify_range V4L2_CID_HBLANK
          (2 ^ 32 + hts_def m - width m) (2 ^ 32 + hts_def m - width m) 1
          (2 ^ 32 + hts_def m - width m);
        v4l2_ctrl_modify_range V4L2_CID_VBLANK
          (vts_def m - height m) (OV13B10_VTS_MAX - height m) 1
          (vts_def m - height m) ].
Proof.
  apply (set_fmt_active_vblank_range quiet_env true (mode_fmt (mode_at 0))
           {| sf_which := V4L2_SUBDEV_FORMAT_ACTIVE;
              sf_format := {| fmt_size := {| fmt_width := 2000; fmt_height := 1000 |};
                              fmt_code := 0; fmt_field := 0 |} |} boot).
  - reflexivity.
  - discriminate.
Defined.

Example set_fmt_active_small_request :
  option_map (fun rw => (vblank (dev (snd rw)), trace (snd rw)))
    (ov13b10_set_fmt quiet_env true (mode_fmt (mode_at 0))
       {| sf_which := V4L2_SUBDEV_FORMAT_ACTIVE;
          sf_format := {| fmt_size := {| fmt_width := 2000; fmt_height := 1000 |};
                          fmt_code := 0; fmt_field := 0 |} |} boot) =
  Some ({| minimum := 2026; maximum := 31597; step := 1; default_value := 2026;
           cur_val := 2026 |},
        [ v4l2_ctrl_modify_range V4L2_CID_HBLANK 4294966392 4294966392 1 4294966392;
          v4l2_ctrl_modify_range V4L2_CID_VBLANK 2026 31597 1 2026 ]).
Proof. vm_compute. reflexivity. Qed.

(** ** Quick stream *)

(** X7: the quick-stream command writes the mode-control register, the
    streaming value for a non-zero argument and the standby value for zero,
    and returns what the write returns, [-EIO] when the bus refuses it.  It
    takes neither the lock nor a power reference and leaves the instance,
    its streaming flag included, as it was: after a quick start on a stopped
    instance a stop request is the no-op of the state already held and sends
    no standby value.  A command the driver does not know returns
    [-ENOIOCTLCMD] and calls nothing. *)
Theorem quick_stream_bypasses_state (env : environment) (arg : Z) (w : world) :
  let c := if Int.u32 arg =? 0 then write_standby else write_streaming in
  let w1 := {| dev := dev w; trace := trace w ++ [c] |} in
  ov13b10_ioctl env RKMODULE_SET_QUICK_STREAM arg w =
    Some (if rc (env (trace w) c) =? 3 then 0 else - EIO, w1) /\
  (mutex (dev w) = false -> streaming (dev w) = false ->
   ov13b10_s_stream env 0 w1 = Some (0, w1)) /\
  (forall cmd, ov13b10_ioctl env (ioctl_other cmd) arg w = Some (- ENOIOCTLCMD, w)).
Proof.
  cbv zeta. split; [| split].
  - unfold ov13b10_ioctl.
    destruct (Int.u32 arg =? 0); cbn [negb];
      rewrite write_reg_run by (unfold OV13B10_REG_VALUE_08BIT; lia);
      reflexivity.
  - intros Hm Hs. destruct w as [d tr]. cbn [dev trace] in *.
    unfold ov13b10_s_stream, mutex_lock, unlock_and_return, mutex_unlock.
    cbv [bind get_dev modify_dev undefined ret dev trace].
    rewrite Hm. cbn [streaming with_mutex Z.eqb negb]. rewrite Hs.
    cbn [Bool.eqb]. now rewrite with_mutex_idle.
  - reflexivity.
Qed.

Lemma quick_stream_bypasses_state_witness :
  ov13b10_ioctl quiet_env RKMODULE_SET_QUICK_STREAM 1 powered =
    Some (0, {| dev := dev powered; trace := [write_streaming] |}) /\
  ov13b10_s_stream quiet_env 0 {| dev := dev powered; trace := [write_streaming] |} =
    Some (0, {| dev := dev powered; trace := [write_streaming] |}) /\
  ov13b10_ioctl dead_bus_env RKMODULE_SET_QUICK_STREAM 0 powered =
    Some (- EIO, {| dev := dev powered; trace := [write_standby] |}).
Proof.
  split; [| split].
  - exact (proj1 (quick_stream_bypasses_state quiet_env 1 powered)).
  - exact (proj1 (proj2 (quick_stream_bypasses_state quiet_env 1 powered))
             eq_refl eq_refl).
  - exact (proj1 (quick_stream_bypasses_state dead_bus_env 0 powered)).
Defined.

(** ** Power cycle *)

Lemma power_off_run (env : environment) (w : world) :
  __ov13b10_power_off env w =
    Some (tt, {| dev := dev w; trace := trace w ++ power_off_calls (dev w) |}).
Proof.
  destruct w as [d tr].
  cbv [__ov13b10_power_off power_off_calls if_present bind extern get_dev ret dev trace].
  destruct (pwdn_gpio d), (reset_gpio d), (pins_sleep d), (power_gpio d);
    cbn [opt_call dev trace]; rewrite <- ?app_assoc; reflexivity.
Qed.

Lemma power_on_success (env : environment) (w w1 : world) :
  __ov13b10_power_on env w = Some (0, w1) ->
  w1 = {| dev := dev w; trace := trace w ++ power_on_calls (dev w) |}.
Proof.
  rewrite power_on_run. cbv zeta.
  destruct (Z.ltb_spec (rc (env (trace w ++ power_on_head (dev w)) clk_prepare_enable)) 0)
    as [Hneg | _].
  { intros H. inversion H. lia. }
  match goal with |- (if ?c <? 0 then _ else _) = _ -> _ =>
    destruct (Z.ltb_spec c 0) as [Hneg | _] end.
  { intros H. inversion H. lia. }
  intros H. inversion H. unfold power_on_calls.
  rewrite <- !app_assoc. reflexivity.
Qed.

Lemma last_gpio_value_app (g : Z) (t1 t2 : list call) :
  last_gpio_value g (t1 ++ t2) =
    match last_gpio_value g t2 with
    | Some v => Some v
    | None => last_gpio_value g t1
    end.
Proof.
  induction t1 as [| c t1 IH]; cbn [app last_gpio_value].
  - now destruct (last_gpio_value g t2).
  - rewrite IH. now destruct (last_gpio_value g t2).
Qed.

Lemma power_off_lowers (d : ov13b10) (g : Z) :
  In (Some g) [power_gpio d; reset_gpio d; pwdn_gpio d] ->
  last_gpio_value g (power_off_calls d) = Some 0.
Proof.
  intros Hin. unfold power_off_calls.
  destruct (pwdn_gpio d) as [p |], (reset_gpio d) as [r |], (pins_sleep d) as [s |],
    (power_gpio d) as [e |];
    cbn [opt_call app last_gpio_value];
    cbn [In] in Hin;
    repeat match goal with
           | H : _ \/ _ |- _ => destruct H
           | H : Some _ = Some _ |- _ => inversion H; clear H; subst
           | H : None = Some _ |- _ => discriminate H
           | H : False |- _ => destruct H
           end;
    rewrite ?Z.eqb_refl;
    repeat match goal with
           | |- context [?a =? ?b] => destruct (a =? b)
           end;
    reflexivity.
Qed.

(** X8: after a power-on that returned 0, the power-off sequence leaves
    every GPIO line the driver holds at 0, whichever of the optional handles
    exist, and over the two sequences the clock is enabled once and disabled
    once and the supplies are enabled once and disabled once; the instance
    itself is not changed. *)
Theorem power_cycle_balanced (env : environment) (w w1 : world) :
  __ov13b10_power_on env w = Some (0, w1) ->
  let t := power_on_calls (dev w) ++ power_off_calls (dev w) in
  __ov13b10_power_off env w1 = Some (tt, {| dev := dev w; trace := trace w ++ t |}) /\
  (forall g, In (Some g) [power_gpio (dev w); reset_gpio (dev w); pwdn_gpio (dev w)] ->
             last_gpio_value g t = Some 0) /\
  count_calls is_clk_enable t = 1%nat /\
  count_calls is_clk_disable t = 1%nat /\
  count_calls is_regulator_enable t = 1%nat /\
  count_calls is_regulator_disable t = 1%nat.
Proof.
  intros Hon. apply power_on_success in Hon. subst w1. cbv zeta.
  rewrite power_off_run. cbn [dev trace].
  split; [now rewrite <- app_assoc |].
  split.
  - intros g Hin. rewrite last_gpio_value_app.
    now rewrite (power_off_lowers (dev w) g Hin).
  - unfold count_calls, power_on_calls, power_off_calls, power_on_head.
    destruct (power_gpio (dev w)), (reset_gpio (dev w)), (pwdn_gpio (dev w)),
      (pins_default (dev w)), (pins_sleep (dev w)); cbn; auto.
Qed.

Lemma power_cycle_balanced_witness :
  let w1 := {| dev := probed; trace := power_on_calls probed |} in
  let t := power_on_calls (dev boot) ++ power_off_calls (dev boot) in
  __ov13b10_power_on quiet_env boot = Some (0, w1) /\
  __ov13b10_power_off quiet_env w1 =
    Some (tt, {| dev := dev boot; trace := trace boot ++ t |}) /\
  (forall g, In (Some g) [power_gpio (dev boot); reset_gpio (dev boot);
                          pwdn_gpio (dev boot)] ->
             last_gpio_value g t = Some 0) /\
  count_calls is_clk_enable t = 1%nat /\
  count_calls is_clk_disable t = 1%nat /\
  count_calls is_regulator_enable t = 1%nat /\
  count_calls is_regulator_disable t = 1%nat.
Proof.
  cbv zeta. split; [reflexivity |].
  apply (power_cycle_balanced quiet_env boot
           {| dev := probed; trace := power_on_calls probed |}).
  reflexivity.
Defined.

(** ** Values read and written *)

Lemma be32_fold (bs : list Z) :
  forall acc,
    0 <= acc ->
    fold_left (fun acc b => Z.lor (Z.shiftl acc 8) (Int.u8 b)) bs acc =
      acc * 256 ^ Z.of_nat (length bs) + Int.be32_to_cpu bs /\
    0 <= Int.be32_to_cpu bs < 256 ^ Z.of_nat (length bs).
Proof.
  unfold Int.be32_to_cpu.
  induction bs as [| b bs IH]; intros acc Hacc.
  - cbn [fold_left length Z.of_nat]. rewrite Z.pow_0_r. lia.
  - assert (Hb : 0 <= Int.u8 b < 256) by (unfold Int.u8; apply Z.mod_pos_bound; lia).
    cbn [fold_left length]. rewrite Nat2Z.inj_succ, Z.pow_succ_r by lia.
    rewrite !lor_shiftl_8 by exact Hb.
    destruct (IH (acc * 256 + Int.u8 b) ltac:(lia)) as [E1 Hbound].
    destruct (IH (0 * 256 + Int.u8 b) ltac:(lia)) as [E0 _].
    rewrite E1, E0. split; [ring |]. nia.
Qed.

Lemma be32_leading_zeros (k : nat) (bs : list Z) :
  Int.be32_to_cpu (repeat 0 k ++ bs) = Int.be32_to_cpu bs.
Proof.
  unfold Int.be32_to_cpu. rewrite fold_left_app. f_equal.
  induction k as [| k IH]; [reflexivity |]. cbn [repeat fold_left]. exact IH.
Qed.

(** X9: a read of [len] bytes, [len] from 1 to 4, that returns 0 yields a
    value below [2^(8 len)], whatever bytes the bus delivers; a read that does
    not return 0 leaves the caller's variable as it was. *)
Theorem read_reg_value_bound (env : environment) (reg len val : Z) (w : world)
    (ret_ v : Z) (w' : world) :
  1 <= len <= 4 ->
  ov13b10_read_reg env reg len val w = Some ((ret_, v), w') ->
  (ret_ = 0 -> 0 <= v < 2 ^ (8 * len)) /\
  (ret_ <> 0 -> ret_ = - EIO /\ v = val).
Proof.
  intros Hlen. rewrite read_reg_run by exact Hlen. cbv zeta.
  destruct (rc _ =? 2); intros H; inversion H; subst; clear H.
  - split; [intros _ | congruence].
    rewrite be32_leading_zeros.
    match goal with |- 0 <= Int.be32_to_cpu ?l < _ =>
      destruct (be32_fold l 0 ltac:(lia)) as [_ Hb];
      assert (Hl : length l = Z.to_nat len)
    end.
    { rewrite length_firstn, length_app, repeat_length. lia. }
    rewrite Hl, Z2Nat.id in Hb by lia.
    replace (2 ^ (8 * len)) with (256 ^ len); [exact Hb |].
    change 256 with (2 ^ 8). rewrite <- Z.pow_mul_r by lia. reflexivity.
  - split; [discriminate | auto].
Qed.

Lemma read_reg_value_bound_witness :
  (0 = 0 -> 0 <= 0x560d42 < 2 ^ (8 * 3)) /\
  (0 <> 0 -> 0 = - EIO /\ 0x560d42 = 0).
Proof.
  apply (read_reg_value_bound genuine_env OV13B10_REG_CHIP_ID 3 0 boot 0 0x560d42
           {| dev := probed; trace := [id_read] |}).
  - lia.
  - reflexivity.
Defined.

Lemma store_bytes_other (bs : list Z) :
  forall (a : Z) (m : regfile) (x : Z),
    0 <= a < 2 ^ 16 ->
    (forall j, 0 <= j < Z.of_nat (length bs) -> Int.u16 (a + j) <> x) ->
    store_bytes a bs m x = m x.
Proof.
  induction bs as [| b bs IH]; intros a m x Ha Hx; [reflexivity |].
  cbn [store_bytes]. rewrite IH.
  - specialize (Hx 0 ltac:(cbn [length]; lia)).
    rewrite Z.add_0_r, u16_small in Hx by exact Ha.
    destruct (Z.eqb_spec x a); congruence.
  - unfold Int.u16. apply Z.mod_pos_bound. lia.
  - intros j Hj. specialize (Hx (j + 1) ltac:(cbn [length]; lia)).
    unfold Int.u16 in *. rewrite Zplus_mod_idemp_l.
    now replace (a + 1 + j) with (a + (j + 1)) by lia.
Qed.

Lemma load_store_bytes (bs : list Z) :
  forall (a : Z) (m : regfile),
    0 <= a < 2 ^ 16 ->
    Z.of_nat (length bs) <= 2 ^ 16 ->
    load_bytes a (length bs) (store_bytes a bs m) = bs.
Proof.
  induction bs as [| b bs IH]; intros a m Ha Hlen; [reflexivity |].
  cbn [length load_bytes store_bytes]. cbn [length] in Hlen.
  assert (Ha' : 0 <= Int.u16 (a + 1) < 2 ^ 16)
    by (unfold Int.u16; apply Z.mod_pos_bound; lia).
  f_equal.
  - rewrite store_bytes_other; [now rewrite Z.eqb_refl | exact Ha' |].
    intros j Hj. unfold Int.u16. rewrite Zplus_mod_idemp_l.
    intros E. Z.div_mod_to_equations. lia.
  - apply IH; [exact Ha' | lia].
Qed.

Lemma be32_cons (b : Z) (bs : list Z) :
  Int.be32_to_cpu (b :: bs) =
    Int.u8 b * 256 ^ Z.of_nat (length bs) + Int.be32_to_cpu bs.
Proof.
  assert (Hb : 0 <= Int.u8 b < 256) by (unfold Int.u8; apply Z.mod_pos_bound; lia).
  unfold Int.be32_to_cpu at 1. cbn [fold_left].
  rewrite lor_shiftl_8 by exact Hb.
  destruct (be32_fold bs (0 * 256 + Int.u8 b) ltac:(lia)) as [E _].
  rewrite E. ring.
Qed.

Lemma payload_value (len v : Z) :
  1 <= len <= 4 -> 0 <= v < 2 ^ 32 ->
  let payload := skipn (Z.to_nat (4 - len)) (Int.cpu_to_be32 v) in
  length payload = Z.to_nat len /\
  Int.be32_to_cpu payload = v mod 2 ^ (8 * len).
Proof.
  intros Hlen Hv. cbv zeta.
  assert (Hcases : len = 1 \/ len = 2 \/ len = 3 \/ len = 4) by lia.
  unfold Int.cpu_to_be32.
  rewrite !land_0xff. rewrite !Z.shiftr_div_pow2 by lia.
  destruct Hcases as [-> | [-> | [-> | ->]]].
  - change (Z.to_nat (4 - 1)) with 3%nat. cbn [skipn]. split; [reflexivity |].
    rewrite !be32_cons. change (Int.be32_to_cpu []) with 0. cbn [length Z.of_nat].
    rewrite !u8_small by (apply Z.mod_pos_bound; lia).
    Z.div_mod_to_equations. lia.
  - change (Z.to_nat (4 - 2)) with 2%nat. cbn [skipn]. split; [reflexivity |].
    rewrite !be32_cons. change (Int.be32_to_cpu []) with 0. cbn [length Z.of_nat].
    rewrite !u8_small by (apply Z.mod_pos_bound; lia).
    change (256 ^ Z.pos (Pos.of_succ_nat 0)) with 256.
    Z.div_mod_to_equations. lia.
  - change (Z.to_nat (4 - 3)) with 1%nat. cbn [skipn]. split; [reflexivity |].
    rewrite !be32_cons. change (Int.be32_to_cpu []) with 0. cbn [length Z.of_nat].
    rewrite !u8_small by (apply Z.mod_pos_bound; lia).
    change (256 ^ Z.pos (Pos.of_succ_nat 0)) with 256.
    change (256 ^ Z.pos (Pos.of_succ_nat 1)) with 65536.
    Z.div_mod_to_equations. lia.
  - change (Z.to_nat (4 - 4)) with 0%nat. cbn [skipn]. split; [reflexivity |].
    rewrite !be32_cons. change (Int.be32_to_cpu []) with 0. cbn [length Z.of_nat].
    rewrite !u8_small by (apply Z.mod_pos_bound; lia).
    change (256 ^ Z.pos (Pos.of_succ_nat 0)) with 256.
    change (256 ^ Z.pos (Pos.of_succ_nat 1)) with 65536.
    change (256 ^ Z.pos (Pos.of_succ_nat 2)) with 16777216.
    Z.div_mod_to_equations. lia.
Qed.

(** X10: on the storing bus, for every length from 1 to 4, every 16-bit
    address and every value, a write followed by a read of the same length at
    the same address returns the value reduced modulo [2^(8 len)]: the write
    keeps the low [len] bytes, the read puts them back in the same order. *)
Theorem write_read_roundtrip (a len v x : Z) (w : world) :
  0 <= a < 2 ^ 16 ->
  1 <= len <= 4 ->
  exists w1 w2,
    ov13b10_write_reg store_env a len v w = Some (0, w1) /\
    ov13b10_read_reg store_env a len x w1 =
      Some ((0, Int.u32 v mod 2 ^ (8 * len)), w2).
Proof.
  intros Ha Hlen.
  assert (Hv : 0 <= Int.u32 v < 2 ^ 32) by (unfold Int.u32; apply Z.mod_pos_bound; lia).
  assert (Hah : 0 <= a / 256 < 256)
    by (split; [apply Z.div_pos | apply Z.div_lt_upper_bound]; lia).
  destruct (payload_value len (Int.u32 v) Hlen Hv) as [Hplen Hpval].
  set (payload := skipn (Z.to_nat (4 - len)) (Int.cpu_to_be32 (Int.u32 v))) in *.
  rewrite write_reg_run by lia. cbv zeta.
  unfold write_buf. fold payload.
  rewrite (u16_small a), land_0xff, shiftr_8, (u8_small (a / 256)) by lia.
  cbn [store_env rc app length]. rewrite Hplen.
  replace (Z.of_nat (S (S (Z.to_nat len)))) with (len + 2) by lia.
  rewrite Z.eqb_refl.
  eexists; eexists. split; [reflexivity |].
  rewrite read_reg_run by lia. cbv zeta. cbn [trace dev].
  rewrite (u16_small a), land_0xff, shiftr_8, (u8_small (a / 256)) by lia.
  cbn [store_env rc data]. rewrite regfile_of_snoc. cbn [apply_call].
  replace (a / 256 * 256 + a mod 256) with a
    by (rewrite (Z.div_mod a 256) at 1; lia).
  rewrite <- Hplen. rewrite load_store_bytes by (rewrite ?Hplen; lia).
  rewrite firstn_app, firstn_all, Nat.sub_diag. cbn [firstn]. rewrite app_nil_r.
  rewrite Z.eqb_refl. rewrite be32_leading_zeros, Hpval. reflexivity.
Qed.

Lemma write_read_roundtrip_witness :
  exists w1 w2,
    ov13b10_write_reg store_env OV13B10_REG_EXPOSURE 3 0x12345678 boot = Some (0, w1) /\
    ov13b10_read_reg store_env OV13B10_REG_EXPOSURE 3 0 w1 =
      Some ((0, Int.u32 0x12345678 mod 2 ^ (8 * 3)), w2).
Proof.
  apply (write_read_roundtrip OV13B10_REG_EXPOSURE 3 0x12345678 0 boot);
    unfold OV13B10_REG_EXPOSURE; lia.
Defined.

(** ** Register programs in general *)

Lemma write_array_result (env : environment) (regs : list regval) :
  forall (w : world) (r : Z) (w' : world),
    ov13b10_write_array env regs w = Some (r, w') ->
    exists k,
      (k <= length regs)%nat /\
      w' = {| dev := dev w;
              trace := trace w ++ map single_byte_write (firstn k regs) |} /\
      Forall (fun e => addr e <> REG_NULL) (firstn k regs) /\
      ((r = 0 /\ exists s, nth_error regs k = Some s /\ addr s = REG_NULL) \/
       (r = - EIO /\ (0 < k)%nat)).
Proof.
  induction regs as [| e regs IH]; intros w r w' Hrun; [discriminate Hrun |].
  destruct (Z.eq_dec (addr e) REG_NULL) as [Hnull | Hnot].
  - cbn [ov13b10_write_array] in Hrun. rewrite Hnull in Hrun.
    cbn [Z.eqb Pos.eqb REG_NULL negb] in Hrun. inversion Hrun; subst.
    exists 0%nat. cbn [firstn map length]. rewrite app_nil_r.
    split; [lia |]. split; [now destruct w' |]. split; [constructor |].
    left. split; [reflexivity |]. exists e. auto.
  - rewrite write_array_entry in Hrun by exact Hnot. cbv zeta in Hrun.
    destruct (rc (env (trace w) (single_byte_write e)) =? 3).
    + apply IH in Hrun. destruct Hrun as (k & Hk & Hw & Hall & Hres).
      exists (S k). cbn [firstn map length dev trace] in *.
      split; [lia |]. split; [now rewrite Hw, <- app_assoc |].
      split; [now constructor |].
      destruct Hres as [[Hr Hs] | [Hr _]]; [left | right]; split; auto; lia.
    + inversion Hrun; subst. exists 1%nat. cbn [firstn map length].
      split; [lia |]. split; [reflexivity |].
      split; [repeat constructor; exact Hnot |].
      right. split; [reflexivity | lia].
Qed.

(** X11: whatever the program and the bus, a run of [ov13b10_write_array]
    that returns has sent the entries of a prefix of the program, each as one
    single-byte write and in program order, none of them the sentinel, and
    nothing else; it returns 0 only when the entry after that prefix is the
    sentinel, and otherwise [-EIO] after at least one write.  The instance
    is not changed. *)
Theorem write_array_sends_prefix (env : environment) (regs : list regval)
    (w : world) (r : Z) (w' : world) :
  ov13b10_write_array env regs w = Some (r, w') ->
  dev w' = dev w /\
  (r = 0 \/ r = - EIO) /\
  exists sent rest,
    regs = sent ++ rest /\
    trace w' = trace w ++ map single_byte_write sent /\
    Forall (fun e => addr e <> REG_NULL) sent /\
    (r = 0 -> exists s rest', rest = s :: rest' /\ addr s = REG_NULL) /\
    (r <> 0 -> sent <> []).
Proof.
  intros Hrun. apply write_array_result in Hrun.
  destruct Hrun as (k & Hk & -> & Hall & Hres). cbn [dev trace].
  split; [reflexivity |]. split; [destruct Hres as [[-> _] | [-> _]]; auto |].
  exists (firstn k regs), (skipn k regs).
  split; [now rewrite firstn_skipn |]. split; [reflexivity |].
  split; [exact Hall |]. split.
  - intros Hr. destruct Hres as [[_ (s & Hs & Hnull)] | [E _]]; [| rewrite E in Hr; discriminate].
    apply nth_error_split in Hs. destruct Hs as (l1 & l2 & Hregs & Hlen).
    exists s, l2. split; [| exact Hnull].
    subst regs k. now rewrite skipn_app, skipn_all, Nat.sub_diag.
  - intros Hr. destruct Hres as [[E _] | [_ Hpos]]; [contradiction |].
    destruct regs as [| e regs]; [cbn in Hk; lia |].
    destruct k; [lia | discriminate].
Qed.

Lemma write_array_sends_prefix_witness :
  dev {| dev := probed; trace := [single_byte_write (rv 0x0305 0xaf)] |} = dev boot /\
  (- EIO = 0 \/ - EIO = - EIO) /\
  exists sent rest,
    [rv 0x0305 0xaf; rv 0x3501 0x0c] = sent ++ rest /\
    trace {| dev := probed; trace := [single_byte_write (rv 0x0305 0xaf)] |} =
      trace boot ++ map single_byte_write sent /\
    Forall (fun e => addr e <> REG_NULL) sent /\
    (- EIO = 0 -> exists s rest', rest = s :: rest' /\ addr s = REG_NULL) /\
    (- EIO <> 0 -> sent <> []).
Proof.
  apply (write_array_sends_prefix dead_bus_env [rv 0x0305 0xaf; rv 0x3501 0x0c] boot).
  reflexivity.
Defined.

(** ** Control writes in general *)







Lemma write_buf_8 (a x : Z) :
  0 <= a < 2 ^ 16 -> 0 <= x < 256 ->
  write_buf a 1 x = [a / 256; a mod 256; x].
Proof.
  intros Ha Hx. unfold write_buf, Int.cpu_to_be32.
  change (Z.to_nat (4 - 1)) with 3%nat. cbn [skipn app].
  rewrite !land_0xff, shiftr_8.
  rewrite (u8_small (a / 256))
    by (split; [apply Z.div_pos | apply Z.div_lt_upper_bound]; lia).
  now rewrite (Z.mod_small x) by lia.
Qed.

(** X13: while the device is in use, setting the analogue gain to a
    non-negative [v] writes bits 8 to 10 of [v] to register 0x350a and then
    the low byte of [v] to register 0x350b.  The second write is issued also
    when the first one failed, and the result is 0 only when the bus took
    both.  For a gain below [2^11], which covers the range of the control,
    the two bytes written make up [v]. *)
Theorem gain_writes_both_bytes (env : environment) (v : Z) (w : world) :
  0 <= v < 2 ^ 31 ->
  rc (env (trace w) pm_runtime_get_if_in_use) <> 0 ->
  let h0 := trace w ++ [pm_runtime_get_if_in_use] in
  let hi := i2c_master_send [0x35; 0x0a; (v / 256) mod 8] in
  let lo := i2c_master_send [0x35; 0x0b; v mod 256] in
  ov13b10_set_ctrl env V4L2_CID_ANALOGUE_GAIN v w =
    Some (if (rc (env h0 hi) =? 3) && (rc (env (h0 ++ [hi]) lo) =? 3) then 0 else - EIO,
          {| dev := dev w; trace := h0 ++ [hi; lo; pm_runtime_put] |}) /\
  (v < 2 ^ 11 -> (v / 256) mod 8 * 256 + v mod 256 = v).
Proof.
  intros Hv Hin. cbv zeta. split; [| intros Hs; Z.div_mod_to_equations; lia].
  destruct w as [d tr]. cbn [dev trace] in *.
  unfold ov13b10_set_ctrl.
  cbv [bind get_dev extern ret]; cbn [dev trace].
  destruct (Z.eqb_spec (rc (env tr pm_runtime_get_if_in_use)) 0) as [E | _];
    [contradiction |].
  assert (Hh : Z.land (Z.shiftr v OV13B10_GAIN_H_SHIFT) OV13B10_GAIN_H_MASK
               = (v / 256) mod 8).
  { unfold OV13B10_GAIN_H_SHIFT, OV13B10_GAIN_H_MASK. change 0x07 with (Z.ones 3).
    now rewrite Z.land_ones, shiftr_8 by lia. }
  assert (Hl : Z.land v OV13B10_GAIN_L_MASK = v mod 256) by apply land_0xff.
  rewrite Hh, Hl.
  pose proof (Z.mod_pos_bound (v / 256) 8 ltac:(lia)) as Hb8.
  pose proof (Z.mod_pos_bound v 256 ltac:(lia)) as Hb256.
  repeat (rewrite write_reg_run by (unfold OV13B10_REG_VALUE_08BIT; lia);
          cbv zeta; cbn [dev trace]).
  rewrite !u32_small by lia.
  unfold OV13B10_REG_VALUE_08BIT.
  rewrite !write_buf_8
    by (try (unfold OV13B10_REG_GAIN_H, OV13B10_REG_GAIN_L, Int.u16; cbn); lia).
  change (Int.u16 OV13B10_REG_GAIN_H / 256) with 0x35.
  change (Int.u16 OV13B10_REG_GAIN_H mod 256) with 0x0a.
  change (Int.u16 OV13B10_REG_GAIN_L / 256) with 0x35.
  change (Int.u16 OV13B10_REG_GAIN_L mod 256) with 0x0b.
  change (1 + 2) with 3.
  rewrite <- !app_assoc. cbn [app].
  do 2 destruct (rc _ =? 3); reflexivity.
Qed.

Lemma gain_writes_both_bytes_witness :
  ov13b10_set_ctrl dead_bus_env V4L2_CID_ANALOGUE_GAIN 0x0300 boot =
    Some (- EIO,
          {| dev := probed;
             trace := [ pm_runtime_get_if_in_use;
                        i2c_master_send [0x35; 0x0a; 0x03];
                        i2c_master_send [0x35; 0x0b; 0x00];
                        pm_runtime_put ] |}) /\
  (0x0300 < 2 ^ 11 -> (0x0300 / 256) mod 8 * 256 + 0x0300 mod 256 = 0x0300).
Proof.
  apply (gain_writes_both_bytes dead_bus_env 0x0300 boot).
  - lia.
  - cbn. discriminate.
Defined.

(** ** Power and streaming requests that fail *)

Lemma write_array_refused (env : environment) (p1 : list regval) (r : regval)
    (p2 : list regval) (w : world) :
  Forall (fun e => addr e <> REG_NULL) (p1 ++ r :: p2) ->
  all_accepted env (trace w) (map single_byte_write p1) ->
  rc (env (trace w ++ map single_byte_write p1) (single_byte_write r)) <> 3 ->
  ov13b10_write_array env (p1 ++ r :: p2) w =
    Some (- EIO, {| dev := dev w;
                    trace := trace w ++ map single_byte_write (p1 ++ [r]) |}).
Proof.
  intros Hfree Hacc Hfail.
  apply Forall_app in Hfree. destruct Hfree as [Hp1 Hrp2].
  inversion Hrp2 as [| ? ? Hr _]; subst.
  rewrite write_array_accepted_prefix by assumption.
  rewrite write_array_entry by exact Hr. cbv zeta. cbn [dev trace].
  destruct (Z.eqb_spec (rc (env (trace w ++ map single_byte_write p1)
                                (single_byte_write r))) 3) as [E | _];
    [contradiction |].
  now rewrite map_app, app_assoc.
Qed.

(** X14: the two ways a request to switch power on fails.  When
    [pm_runtime_get_sync] returns a negative value the request returns that
    value after [pm_runtime_put_noidle] and sends nothing.  When it does not
    and the bus refuses one write of [ov13b10_global_regs], the request
    returns [-EIO]: the entries up to the refused one were sent in table
    order, the rest of the table was not, and [pm_runtime_put_noidle] is the
    last call.  In both cases the instance is as before, the lock free and
    [power_on] still false. *)
Theorem s_power_on_failure_paths (env : environment) (on : Z) (w : world) :
  on <> 0 ->
  mutex (dev w) = false ->
  power_on (dev w) = false ->
  let g := rc (env (trace w) pm_runtime_get_sync) in
  let h := trace w ++ [pm_runtime_get_sync] in
  (g < 0 ->
   ov13b10_s_power env on w =
     Some (g, {| dev := dev w; trace := h ++ [pm_runtime_put_noidle] |})) /\
  (forall (p1 : list regval) (r : regval) (p2 : list regval),
     0 <= g ->
     ov13b10_global_regs = p1 ++ r :: p2 ->
     all_accepted env h (map single_byte_write p1) ->
     rc (env (h ++ map single_byte_write p1) (single_byte_write r)) <> 3 ->
     ov13b10_s_power env on w =
       Some (- EIO, {| dev := dev w;
                       trace := h ++ map single_byte_write (p1 ++ [r]) ++
                                [pm_runtime_put_noidle] |})).
Proof.
  intros Hon Hm Hp. cbv zeta.
  destruct w as [d tr]. cbn [dev trace] in *.
  assert (Hfree : Forall (fun e => addr e <> REG_NULL) ov13b10_global_regs)
    by (apply sentinel_free_Forall, tables_lack_sentinel).
  unfold ov13b10_s_power.
  destruct (Z.eqb_spec on 0) as [E | _]; [contradiction |]. cbn [negb].
  set (prog := ov13b10_write_array env ov13b10_global_regs).
  unfold mutex_lock, unlock_and_return, mutex_unlock.
  cbv [bind get_dev modify_dev undefined ret extern]; cbn [dev trace].
  rewrite Hm. cbn [dev trace power_on with_mutex]. rewrite Hp.
  cbn [Bool.eqb dev trace].
  split.
  - intros Hneg.
    destruct (Z.ltb_spec (rc (env tr pm_runtime_get_sync)) 0) as [_ | Hpos]; [| lia].
    cbn [dev trace]. now rewrite with_mutex_idle, <- app_assoc by exact Hm.
  - intros p1 r p2 Hpos Hregs Hacc Hfail.
    destruct (Z.ltb_spec (rc (env tr pm_runtime_get_sync)) 0) as [Hneg | _]; [lia |].
    subst prog. rewrite Hregs in Hfree |- *.
    rewrite write_array_refused by assumption. cbn [dev trace].
    change (negb (- EIO =? 0)) with true. cbv iota. cbn [dev trace].
    now rewrite with_mutex_idle, <- !app_assoc by exact Hm.
Qed.

Lemma s_power_on_failure_paths_witness :
  ov13b10_s_power (fail_after_env 2) 1 boot =
    Some (- EIO, {| dev := probed;
                    trace := [ pm_runtime_get_sync;
                               i2c_master_send [0x01; 0x03; 0x01];
                               i2c_master_send [0x03; 0x03; 0x04];
                               pm_runtime_put_noidle ] |}).
Proof.
  apply (proj2 (s_power_on_failure_paths (fail_after_env 2) 1 boot
                  ltac:(discriminate) eq_refl eq_refl)
               [rv 0x0103 0x01] (rv 0x0303 0x04) (skipn 2 ov13b10_global_regs)).
  - cbn. lia.
  - reflexivity.
  - cbn. auto.
  - cbn. discriminate.
Defined.

(** X15: the two ways a start request fails before any control is applied,
    with a mode of the catalog active.  When [pm_runtime_get_sync] returns a
    negative value the request returns that value after
    [pm_runtime_put_noidle] and sends nothing.  When it does not and the bus
    refuses one write of the mode's register table, the request returns
    [-EIO]: the entries up to the refused one were sent in table order, no
    control was applied, the mode-control register was not written, and
    [pm_runtime_put] is the last call.  In both cases the instance is as
    before, the lock free and [streaming] still false. *)
Theorem start_request_failure_paths (env : environment) (on : Z) (w : world) :
  on <> 0 ->
  mutex (dev w) = false ->
  streaming (dev w) = false ->
  In (cur_mode (dev w)) supported_modes ->
  let g := rc (env (trace w) pm_runtime_get_sync) in
  let h := trace w ++ [pm_runtime_get_sync] in
  (g < 0 ->
   ov13b10_s_stream env on w =
     Some (g, {| dev := dev w; trace := h ++ [pm_runtime_put_noidle] |})) /\
  (forall (p1 : list regval) (r : regval) (p2 : list regval),
     0 <= g ->
     reg_list (cur_mode (dev w)) = p1 ++ r :: p2 ->
     all_accepted env h (map single_byte_write p1) ->
     rc (env (h ++ map single_byte_write p1) (single_byte_write r)) <> 3 ->
     ov13b10_s_stream env on w =
       Some (- EIO, {| dev := dev w;
                       trace := h ++ map single_byte_write (p1 ++ [r]) ++
                                [pm_runtime_put] |})).
Proof.
  intros Hon Hm Hs Hin. cbv zeta.
  destruct w as [d tr]. cbn [dev trace] in *.
  assert (Hfree : Forall (fun e => addr e <> REG_NULL) (reg_list (cur_mode d))).
  { apply sentinel_free_Forall.
    destruct tables_lack_sentinel as [_ Hall]. rewrite Forall_forall in Hall.
    now apply Hall. }
  unfold ov13b10_s_stream.
  destruct (Z.eqb_spec on 0) as [E | _]; [contradiction |]. cbn [negb].
  unfold __ov13b10_start_stream.
  set (prog := ov13b10_write_array env).
  unfold mutex_lock, unlock_and_return, mutex_unlock.
  cbv [bind get_dev modify_dev undefined ret extern]; cbn [dev trace].
  rewrite Hm. cbn [dev trace streaming with_mutex]. rewrite Hs.
  cbn [Bool.eqb dev trace].
  split.
  - intros Hneg.
    destruct (Z.ltb_spec (rc (env tr pm_runtime_get_sync)) 0) as [_ | Hpos]; [| lia].
    cbn [dev trace]. now rewrite with_mutex_idle, <- app_assoc by exact Hm.
  - intros p1 r p2 Hpos Hregs Hacc Hfail.
    destruct (Z.ltb_spec (rc (env tr pm_runtime_get_sync)) 0) as [Hneg | _]; [lia |].
    subst prog. cbn [dev].
    change (cur_mode (with_mutex true d)) with (cur_mode d).
    rewrite Hregs in Hfree |- *.
    rewrite write_array_refused by assumption. cbn [dev trace].
    change (negb (- EIO =? 0)) with true. cbv beta iota.
    change (negb (- EIO =? 0)) with true. cbv beta iota. cbn [dev trace].
    now rewrite with_mutex_idle, <- !app_assoc by exact Hm.
Qed.

Lemma start_request_failure_paths_witness :
  ov13b10_s_stream (fail_after_env 2) 1 powered =
    Some (- EIO, {| dev := with_power_on true probed;
                    trace := [ pm_runtime_get_sync;
                               i2c_master_send [0x03; 0x05; 0xaf];
                               i2c_master_send [0x35; 0x01; 0x0c];
                               pm_runtime_put ] |}).
Proof.
  apply (proj2 (start_request_failure_paths (fail_after_env 2) 1 powered
                  ltac:(discriminate) eq_refl eq_refl ltac:(cbn; now left))
               [rv 0x0305 0xaf] (rv 0x3501 0x0c)
               (skipn 2 (reg_list (mode_at 0)))).
  - cbn. lia.
  - reflexivity.
  - cbn. auto.
  - cbn. discriminate.
Defined.

(** X16: a start request that returns an error has released the power
    reference it took, as its last call: with [pm_runtime_put_noidle] and
    nothing in between when the resume itself failed, with [pm_runtime_put]
    when the program, a control or the last write failed. *)
Theorem start_request_failure_releases (env : environment) (on : Z) (w : world)
    (r : Z) (w' : world) :
  on <> 0 ->
  streaming (dev w) = false ->
  ov13b10_s_stream env on w = Some (r, w') ->
  r <> 0 ->
  exists t last,
    trace w' = trace w ++ pm_runtime_get_sync :: t ++ [last] /\
    ((rc (env (trace w) pm_runtime_get_sync) < 0 /\
      last = pm_runtime_put_noidle /\ t = []) \/
     (0 <= rc (env (trace w) pm_runtime_get_sync) /\ last = pm_runtime_put)).
Proof.
  intros Hon Hs. unfold ov13b10_s_stream.
  destruct (Z.eqb_spec on 0) as [E | _]; [contradiction |]. cbn [negb].
  destruct w as [d tr]. cbn [dev trace] in *.
  unfold mutex_lock, unlock_and_return, mutex_unlock.
  cbv [bind get_dev modify_dev undefined ret extern]; cbn [dev trace].
  destruct (mutex d) eqn:Hm; [discriminate |].
  cbn [dev trace streaming with_mutex]. rewrite Hs. cbn [Bool.eqb dev trace].
  destruct (Z.ltb_spec (rc (env tr pm_runtime_get_sync)) 0) as [Hneg | Hpos].
  - intros H _. inversion H; subst; clear H. cbn [trace].
    exists [], pm_runtime_put_noidle. split; [now rewrite <- app_assoc |]. now left.
  - destruct (__ov13b10_start_stream env _) as [[r1 w1] |] eqn:Estart; [| discriminate].
    apply keeps_start_stream in Estart. destruct Estart as [_ [t Ht]].
    cbn [trace] in Ht.
    destruct (Z.eqb_spec r1 0) as [-> | Hr1]; cbn [negb]; intros H Hr;
      inversion H; subst; clear H; [contradiction |].
    cbn [trace]. exists t, pm_runtime_put.
    split; [rewrite Ht, <- !app_assoc; reflexivity |]. now right.
Qed.

Lemma start_request_failure_releases_witness :
  exists t last,
    trace {| dev := with_cur_mode closed_mode (with_power_on true probed);
             trace := [ pm_runtime_get_sync;
                        i2c_master_send [0x03; 0x05; 0xaf];
                        i2c_master_send [0x35; 0x01; 0x0c];
                        pm_runtime_put ] |} =
      trace powered_closed ++ pm_runtime_get_sync :: t ++ [last] /\
    ((rc (fail_after_env 2 (trace powered_closed) pm_runtime_get_sync) < 0 /\
      last = pm_runtime_put_noidle /\ t = []) \/
     (0 <= rc (fail_after_env 2 (trace powered_closed) pm_runtime_get_sync) /\
      last = pm_runtime_put)).
Proof.
  apply (start_request_failure_releases (fail_after_env 2) 1 powered_closed (- EIO)).
  - discriminate.
  - reflexivity.
  - vm_compute. reflexivity.
  - discriminate.
Defined.

(** ** Frame intervals *)

(** X17: [ov13b10_enum_frame_interval] succeeds exactly for an index below
    the number of modes, whatever media bus code the caller put in, and
    otherwise returns [-EINVAL] leaving the record as it was.  The size it
    reports, once committed through [ov13b10_set_fmt], makes
    [ov13b10_g_frame_interval] return the interval it reported. *)
Theorem enum_frame_interval_agrees (env : environment) (api : bool)
    (sd_state : mbus_fmt) (which : Z) (fie : v4l2_subdev_frame_interval_enum)
    (w : world) :
  mutex (dev w) = false ->
  which <> V4L2_SUBDEV_FORMAT_TRY ->
  let r := ov13b10_enum_frame_interval fie in
  (fst r = 0 <-> Int.u32 (fie_index fie) < 5) /\
  (fst r <> 0 -> fst r = - EINVAL /\ snd r = fie) /\
  (fst r = 0 ->
   exists out w',
     ov13b10_set_fmt env api sd_state
       {| sf_which := which;
          sf_format := {| fmt_size := {| fmt_width := fie_width (snd r);
                                         fmt_height := fie_height (snd r) |};
                          fmt_code := fie_code (snd r);
                          fmt_field := V4L2_FIELD_NONE |} |} w =
       Some ((0, sd_state, out), w') /\
     fmt_size (sf_format out) = {| fmt_width := fie_width (snd r);
                                   fmt_height := fie_height (snd r) |} /\
     ov13b10_g_frame_interval w' = Some ((0, fie_interval (snd r)), w')).
Proof.
  intros Hm Hwhich. cbv zeta. unfold ov13b10_enum_frame_interval.
  assert (Hi : 0 <= Int.u32 (fie_index fie))
    by (unfold Int.u32; apply Z.mod_pos_bound; lia).
  change (Z.of_nat (length supported_modes)) with 5.
  destruct (Z.leb_spec 5 (Int.u32 (fie_index fie))) as [Hge | Hlt]; cbn [fst snd].
  - split; [split; [discriminate | lia] |]. split; [auto | discriminate].
  - split; [tauto |]. split; [congruence |]. intros _.
    cbn [fie_width fie_height fie_code fie_interval].
    set (fmt := {| sf_which := which; sf_format := _ |}).
    destruct (set_fmt_active_run env api sd_state fmt w Hm Hwhich)
      as (d' & Hrun & Hmode & _).
    cbv zeta in Hrun, Hmode. subst fmt. cbn [sf_format fmt_size sf_which] in Hrun, Hmode.
    change {| fmt_width := width (mode_at (Int.u32 (fie_index fie)));
              fmt_height := height (mode_at (Int.u32 (fie_index fie))) |}
      with (fmt_size (mode_fmt (mode_at (Int.u32 (fie_index fie))))) in Hrun, Hmode.
    rewrite find_best_fit_catalog_size in Hrun, Hmode by lia.
    eexists. eexists. split; [exact Hrun |]. split; [reflexivity |].
    unfold ov13b10_g_frame_interval. cbv [bind get_dev ret]. cbn [dev].
    now rewrite Hmode.
Qed.

Lemma enum_frame_interval_agrees_witness :
  let fie := {| fie_index := 3; fie_code := 0; fie_width := 0; fie_height := 0;
                fie_interval := {| numerator := 0; denominator := 0 |} |} in
  let r := ov13b10_enum_frame_interval fie in
  ((fst r = 0 <-> Int.u32 (fie_index fie) < 5) /\
   (fst r <> 0 -> fst r = - EINVAL /\ snd r = fie) /\
   (fst r = 0 ->
    exists out w',
      ov13b10_set_fmt quiet_env true (mode_fmt (mode_at 0))
        {| sf_which := V4L2_SUBDEV_FORMAT_ACTIVE;
           sf_format := {| fmt_size := {| fmt_width := fie_width (snd r);
                                          fmt_height := fie_height (snd r) |};
                           fmt_code := fie_code (snd r);
                           fmt_field := V4L2_FIELD_NONE |} |} boot =
        Some ((0, mode_fmt (mode_at 0), out), w') /\
      fmt_size (sf_format out) = {| fmt_width := fie_width (snd r);
                                    fmt_height := fie_height (snd r) |} /\
      ov13b10_g_frame_interval w' = Some ((0, fie_interval (snd r)), w'))) /\
  snd r = {| fie_index := 3; fie_code := MEDIA_BUS_FMT_SGRBG10_1X10;
             fie_width := 2104; fie_height := 1560;
             fie_interval := {| numerator := 10000; denominator := 600000 |} |}.
Proof.
  cbv zeta. split; [| reflexivity].
  apply (enum_frame_interval_agrees quiet_env true (mode_fmt (mode_at 0))
           V4L2_SUBDEV_FORMAT_ACTIVE
           {| fie_index := 3; fie_code := 0; fie_width := 0; fie_height := 0;
              fie_interval := {| numerator := 0; denominator := 0 |} |} boot).
  - reflexivity.
  - discriminate.
Defined.
